(** * onos-config, package southbound: gNMI target sessions

    A shallow embedding of [pkg/southbound] (the file that declares
    [createDestination], [GetTarget], [ConnectTarget], the unary and
    streaming operations of [Target], and [NewSubscribeRequest]).

    Conventions of the embedding.
    - Go packages are Rocq modules ([tls], [client], [topodevice], [gpb]);
      the declarations of package [southbound] itself are at top level.
    - A Go [string] is a byte string ([string] of [ascii]).
    - A function returning [(T, error)] returns a sum [T + error].
    - Pointers to [Target] are locations of a heap; the global registry
      [targets] stores locations, so aliasing is visible.
    - Calls on injected collaborators (the client factories, the client
      methods) are recorded in a trace; their results are given by
      oracles that see the trace so far, so two calls need not agree.
    - A run-time panic (method call on a nil interface, nil receiver) is
      an explicit outcome.
    - Mutexes are not modelled: every operation runs alone.  Log lines are
      not modelled either. *)

From Stdlib Require Import ZArith NArith Ascii.
From stdpp Require Import gmap strings list pretty.

Open Scope string_scope.

(** ** Errors *)

(** Go [error] values built by this package: [fmt.Errorf] gives an untyped
    error, [errors.NewInvalid] (onos-lib-go) a typed one. *)
Inductive error : Type :=
  | Errorf (msg : string)
  | NewInvalid (msg : string).

(** [err.Error()] *)
Definition Error (e : error) : string :=
  match e with
  | Errorf msg => msg
  | NewInvalid msg => msg
  end.

(** ** crypto/tls, crypto/x509 and the embedded certificates

    Key material is modelled by its provenance: the value records which
    library call built it and from which PEM source. *)
Module tls.

Inductive PEM : Type :=
  | OnfCaCrt
  | DefaultClientCrt
  | DefaultClientKey
  | FileContents (path : string).

(** [x509.NewCertPool()] followed by [AppendCertsFromPEM] of each source *)
Inductive CertPool : Type :=
  | CertPoolOf (pems : list PEM).

Inductive Certificate : Type :=
  | X509KeyPair (certPEM keyPEM : PEM)
  | LoadX509KeyPair (certFile keyFile : string).

Record Config : Type := mkConfig {
  InsecureSkipVerify : bool;
  RootCAs : option CertPool;
  Certificates : list Certificate
}.

(** [tls.Config{}] *)
Definition zero : Config := mkConfig false None [].

Definition withRootCAs (c : Config) (p : CertPool) : Config :=
  mkConfig (InsecureSkipVerify c) (Some p) (Certificates c).

Definition withCertificates (c : Config) (l : list Certificate) : Config :=
  mkConfig (InsecureSkipVerify c) (RootCAs c) l.

End tls.

(** ** openconfig/gnmi/client: destinations *)
Module client.

Record CredentialsT : Type := mkCredentials {
  Username : string;
  Password : string
}.

Record Destination : Type := mkDestination {
  Addrs : list string;
  Target : string;
  Timeout : Z;
  Credentials : option CredentialsT;
  TLS : option tls.Config
}.

Definition withTLS (d : Destination) (c : option tls.Config) : Destination :=
  mkDestination (Addrs d) (Target d) (Timeout d) (Credentials d) c.

Definition withCredentials (d : Destination) (c : option CredentialsT)
  : Destination :=
  mkDestination (Addrs d) (Target d) (Timeout d) c (TLS d).

End client.

(** ** The device descriptor (topodevice.Device), fields read here *)
Module topodevice.

Record CredentialsT : Type := mkCredentials {
  User : string;
  Password : string
}.

Record TLSConfig : Type := mkTLS {
  CaCert : string;
  Cert : string;
  Key : string;
  Plain : bool;
  Insecure : bool
}.

Record Device : Type := mkDevice {
  ID : string;
  Address : string;
  Target : string;
  Version : string;
  Timeout : option Z;
  Credentials : CredentialsT;
  TLS : TLSConfig
}.

End topodevice.

(** ** devicetype.VersionedID *)

(** [type VersionedID string] *)
Abbreviation VersionedID := string.

(** [devicetype.NewVersionedID]: [fmt.Sprintf("%s:%s", id, version)] *)
Definition NewVersionedID (id version : string) : VersionedID :=
  id ++ ":" ++ version.

(** ** The resolver *)

Definition setCertificate (pathCert pathKey : string) : tls.Certificate :=
  tls.LoadX509KeyPair pathCert pathKey.

Definition getCertPool (CaPath : string) : tls.CertPool :=
  tls.CertPoolOf [tls.FileContents CaPath].

Definition getCertPoolDefault : tls.CertPool :=
  tls.CertPoolOf [tls.OnfCaCrt].

Definition createDestination (device : topodevice.Device)
  : client.Destination * VersionedID :=
  let devTLS := topodevice.TLS device in
  let devCred := topodevice.Credentials device in
  let d :=
    client.mkDestination
      [topodevice.Address device]
      (topodevice.Target device)
      (match topodevice.Timeout device with Some t => t | None => 0%Z end)
      None None in
  let d :=
    if topodevice.Plain devTLS then d
    else
      let cfg :=
        if topodevice.Insecure devTLS
        then tls.mkConfig true None []
        else tls.zero in
      let cfg :=
        if String.eqb (topodevice.CaCert devTLS) ""
        then tls.withRootCAs cfg getCertPoolDefault
        else tls.withRootCAs cfg (getCertPool (topodevice.CaCert devTLS)) in
      if String.eqb (topodevice.Cert devTLS) ""
         && String.eqb (topodevice.Key devTLS) ""
      then
        client.withTLS d
          (Some (tls.withCertificates cfg
                   [tls.X509KeyPair tls.DefaultClientCrt tls.DefaultClientKey]))
      else if negb (String.eqb (topodevice.Cert devTLS) "")
              && negb (String.eqb (topodevice.Key devTLS) "")
      then
        client.withTLS d
          (Some (tls.withCertificates cfg
                   [setCertificate (topodevice.Cert devTLS)
                                   (topodevice.Key devTLS)]))
      else if negb (String.eqb (topodevice.User devCred) "")
              && negb (String.eqb (topodevice.Password devCred) "")
      then
        client.withCredentials (client.withTLS d (Some cfg))
          (Some (client.mkCredentials (topodevice.User devCred)
                                      (topodevice.Password devCred)))
      else
        client.withTLS d (Some (tls.mkConfig true None []))
  in
  (d, NewVersionedID (topodevice.ID device) (topodevice.Version device)).

(** ** openconfig/gnmi/proto/gnmi: the messages built or passed here *)
Module gpb.

Inductive SubscriptionList_Mode : Type :=
  | SubscriptionList_STREAM
  | SubscriptionList_ONCE
  | SubscriptionList_POLL.

Definition SubscriptionList_Mode_String (m : SubscriptionList_Mode) : string :=
  match m with
  | SubscriptionList_STREAM => "STREAM"
  | SubscriptionList_ONCE => "ONCE"
  | SubscriptionList_POLL => "POLL"
  end.

Inductive SubscriptionMode : Type :=
  | SubscriptionMode_TARGET_DEFINED
  | SubscriptionMode_ON_CHANGE
  | SubscriptionMode_SAMPLE.

Definition SubscriptionMode_String (m : SubscriptionMode) : string :=
  match m with
  | SubscriptionMode_TARGET_DEFINED => "TARGET_DEFINED"
  | SubscriptionMode_ON_CHANGE => "ON_CHANGE"
  | SubscriptionMode_SAMPLE => "SAMPLE"
  end.

Record PathElem : Type := mkPathElem {
  Name : string;
  Key : list (string * string)
}.

Record Path : Type := mkPath {
  Element : list string;
  Origin : string;
  Elem : list PathElem;
  Target : string
}.

(** [p.Origin = origin] *)
Definition withOrigin (p : Path) (origin : string) : Path :=
  mkPath (Element p) origin (Elem p) (Target p).

(** Fields this package does not set keep their zero value and are left
    out of the records below. *)
Record Subscription : Type := mkSubscription {
  sub_Path : Path;
  sub_Mode : SubscriptionMode;
  sub_SampleInterval : N;
  sub_HeartbeatInterval : N
}.

Record SubscriptionList : Type := mkSubscriptionList {
  sl_Prefix : Path;
  sl_Subscription : list Subscription;
  sl_Mode : SubscriptionList_Mode;
  sl_UpdatesOnly : bool
}.

(** The [Request] oneof of a SubscribeRequest. *)
Inductive SubscribeRequest : Type :=
  | SubscribeRequest_Subscribe (Subscribe : SubscriptionList)
  | SubscribeRequest_Poll.

(** Capabilities, Get and Set messages are only passed through; each is
    represented by its text form, the one [String()] prints. *)
Record CapabilityRequest : Type :=
  mkCapabilityRequest { CapabilityRequest_String : string }.
Record CapabilityResponse : Type :=
  mkCapabilityResponse { CapabilityResponse_String : string }.
Record GetRequest : Type := mkGetRequest { GetRequest_String : string }.
Record GetResponse : Type := mkGetResponse { GetResponse_String : string }.
Record SetRequest : Type := mkSetRequest { SetRequest_String : string }.
Record SetResponse : Type := mkSetResponse { SetResponse_String : string }.

End gpb.

(** ** Handles *)

(** A [context.Context]; [None] is the nil context. *)
Abbreviation Context := (option nat).
(** A [client.ProtoHandler]; [None] is the nil function. *)
Abbreviation ProtoHandler := (option nat).
(** A non-nil [GnmiClient] interface value. *)
Abbreviation GnmiClient := nat.
(** A client returned by [GnmiBaseClientFactory]. *)
Abbreviation BaseClient := nat.
(** The address of a [Target]. *)
Abbreviation loc := positive.

(** [client.Query]: the fields [Subscribe] sets, and of those [NewQuery]
    fills, the request it was built from and its updates-only flag. *)
Record Query : Type := mkQuery {
  Q_Addrs : list string;
  Q_Target : string;
  Q_Timeout : Z;
  Q_Credentials : option client.CredentialsT;
  Q_TLS : option tls.Config;
  Q_ProtoHandler : ProtoHandler;
  Q_UpdatesOnly : bool;
  Q_SubReq : option gpb.SubscribeRequest
}.

(** ** Package state *)

(** [SubscribeOptions], declared in another file of the package: the
    fields [NewSubscribeRequest] reads; the intervals are [uint64]. *)
Record SubscribeOptions : Type := mkSubscribeOptions {
  UpdatesOnly : bool;
  Prefix : string;
  Mode : string;
  StreamMode : string;
  SampleInterval : N;
  HeartbeatInterval : N;
  Paths : list (list string);
  Origin : string
}.

(** [Target], declared in another file of the package: the fields this
    file reads and writes ([dest], [clt], [ctx]; the mutex [mu] is left
    out).  [clt = None] is the nil interface. *)
Record Target : Type := mkTarget {
  dest : client.Destination;
  clt : option GnmiClient;
  ctx : Context
}.

(** [Target{}] *)
Definition zeroTarget : Target :=
  mkTarget (client.mkDestination [] "" 0%Z None None) None None.

(** Calls that leave the package. *)
Inductive Event : Type :=
  | CallGnmiClientFactory (c : Context) (d : client.Destination)
  | CallGnmiBaseClientFactory
  | CallClose (c : GnmiClient)
  | CallCapabilities (c : GnmiClient) (cx : Context) (r : gpb.CapabilityRequest)
  | CallGet (c : GnmiClient) (cx : Context) (r : gpb.GetRequest)
  | CallSet (c : GnmiClient) (cx : Context) (r : gpb.SetRequest)
  | CallBaseSubscribe (b : BaseClient) (cx : Context) (q : Query)
                      (clientType : string).

(** The client an event is a call on, if any. *)
Definition onClient (e : Event) : option GnmiClient :=
  match e with
  | CallClose c | CallCapabilities c _ _ | CallGet c _ _ | CallSet c _ _ =>
      Some c
  | _ => None
  end.

(** The heap of targets, the global [targets] map and the calls so far. *)
Record World : Type := mkWorld {
  heap : gmap loc Target;
  targets : gmap string loc;
  trace : list Event
}.

(** ** Collaborators

    Code outside this file: the injected factories and the clients they
    return (oracles over the calls so far), the protobuf text parser,
    [client.NewQuery], the path helpers of [pkg/utils], and the two
    library functions whose Unicode tables are not reproduced. *)
Class Collaborators : Type := {
  GnmiClientFactory :
    list Event -> Context -> client.Destination -> GnmiClient + error;
  GnmiBaseClientFactory : list Event -> BaseClient;
  clt_Close : list Event -> GnmiClient -> option error;
  clt_Capabilities :
    list Event -> GnmiClient -> Context -> gpb.CapabilityRequest ->
    gpb.CapabilityResponse + error;
  clt_Get :
    list Event -> GnmiClient -> Context -> gpb.GetRequest ->
    gpb.GetResponse + error;
  clt_Set :
    list Event -> GnmiClient -> Context -> gpb.SetRequest ->
    gpb.SetResponse + error;
  base_Subscribe :
    list Event -> BaseClient -> Context -> Query -> string -> option error;
  UnmarshalText_CapabilityRequest : string -> gpb.CapabilityRequest + error;
  UnmarshalText_GetRequest : string -> gpb.GetRequest + error;
  UnmarshalText_SetRequest : string -> gpb.SetRequest + error;
  NewQuery : gpb.SubscribeRequest -> Query + error;
  SplitPath : string -> list string;
  ParseGNMIElements : list string -> gpb.Path + error;
  (** [strings.Map(unicode.ToUpper, s)], reached for non-ASCII input *)
  MapToUpper : string -> string;
  (** [strconv.Quote], the [%q] verb *)
  Quote : string -> string
}.

(** ** Effects: state, trace and panics *)

Inductive Outcome (A : Type) : Type :=
  | Returned (a : A) (w : World)
  | Panicked (w : World).
Arguments Returned {A} a w.
Arguments Panicked {A} w.

Definition M (A : Type) : Type := World -> Outcome A.

#[export] Instance M_ret : MRet M := fun A a w => Returned a w.

#[export] Instance M_bind : MBind M := fun A B k m w =>
  match m w with
  | Returned a w' => k a w'
  | Panicked w' => Panicked w'
  end.

(** A nil dereference. *)
Definition panic {A : Type} : M A := fun w => Panicked w.

(** A call on a collaborator: the oracle sees the calls made before it. *)
Definition invoke {R : Type} (e : Event) (oracle : list Event -> R) : M R :=
  fun w =>
    Returned (oracle (trace w)) (mkWorld (heap w) (targets w) (trace w ++ [e])).

(** [*target]: panics on a pointer that addresses no [Target]. *)
Definition deref (target : loc) : M Target :=
  fun w =>
    match heap w !! target with
    | Some t => Returned t w
    | None => Panicked w
    end.

(** [*target = t] *)
Definition store (target : loc) (t : Target) : M unit :=
  fun w => Returned tt (mkWorld (<[target := t]> (heap w)) (targets w) (trace w)).

Definition readTargets : M (gmap string loc) :=
  fun w => Returned (targets w) w.

(** ** strings.ToUpper *)

Definition isLower (c : ascii) : bool :=
  (97 <=? nat_of_ascii c)%nat && (nat_of_ascii c <=? 122)%nat.

Definition upperByte (c : ascii) : ascii :=
  if isLower c then ascii_of_nat (nat_of_ascii c - 32) else c.

Fixpoint isASCII (s : string) : bool :=
  match s with
  | EmptyString => true
  | String c s' => (nat_of_ascii c <? 128)%nat && isASCII s'
  end.

Fixpoint mapBytes (f : ascii -> ascii) (s : string) : string :=
  match s with
  | EmptyString => EmptyString
  | String c s' => String (f c) (mapBytes f s')
  end.

(** The ASCII fast path of the library, else the rune-wise mapping. *)
Definition ToUpper `{Collaborators} (s : string) : string :=
  if isASCII s then mapBytes upperByte s else MapToUpper s.

(** The [%v] verb on a slice of strings: [[a b c]]. *)
Fixpoint joinSpace (l : list string) : string :=
  match l with
  | [] => ""
  | [x] => x
  | x :: rest => x ++ " " ++ joinSpace rest
  end.

Definition fmtSlice (l : list string) : string := "[" ++ joinSpace l ++ "]".

(** ** The registry *)

(** [NewTargetItem] *)
Definition NewTargetItem (deviceID : VersionedID) (target : loc) : M unit :=
  fun w =>
    Returned tt (mkWorld (heap w) (<[deviceID := target]> (targets w)) (trace w)).

(** The keys collected by [for t := range targets]; the order of a Go map
    range is unspecified, the model takes the map's own. *)
Definition targetNames (m : gmap string loc) : list VersionedID :=
  (map_to_list m).*1.

Definition GetTarget (key : VersionedID) : M (loc + error) :=
  m ← readTargets;
  match m !! key with
  | Some t => mret (inl t)
  | None =>
      mret (inr (Errorf ("gNMI client for " ++ key
                         ++ " does not exist. Known clients: "
                         ++ fmtSlice (targetNames m))))
  end.

Definition ConnectTarget `{Collaborators}
    (target : loc) (cx : Context) (device : topodevice.Device)
  : M (VersionedID * option error) :=
  let '(dst, key) := createDestination device in
  r ← invoke (CallGnmiClientFactory cx dst)
             (fun h => GnmiClientFactory h cx dst);
  match r with
  | inr err =>
      mret ("", Some (Errorf ("could not create a gNMI client: " ++ Error err)))
  | inl c =>
      t ← deref target;
      _ ← match clt t with
          | Some old =>
              _ ← invoke (CallClose old) (fun h => clt_Close h old);
              mret tt
          | None => mret tt
          end;
      _ ← store target (mkTarget dst (Some c) cx);
      _ ← NewTargetItem key target;
      mret (key, None)
  end.

(** ** Target sessions *)

(** [target.Context()] *)
Definition TargetContext (target : loc) : M Context :=
  t ← deref target; mret (ctx t).

(** [target.Destination()] *)
Definition Destination (target : loc) : M client.Destination :=
  t ← deref target; mret (dest t).

(** [target.Client()] *)
Definition Client (target : loc) : M (option GnmiClient) :=
  t ← deref target; mret (clt t).

(** [target.Close()]: a method call on the nil interface panics. *)
Definition Close `{Collaborators} (target : loc) : M (option error) :=
  c ← Client target;
  match c with
  | None => panic
  | Some c => invoke (CallClose c) (fun h => clt_Close h c)
  end.

Definition Capabilities `{Collaborators}
    (target : loc) (cx : Context) (request : gpb.CapabilityRequest)
  : M (gpb.CapabilityResponse + error) :=
  c ← Client target;
  match c with
  | None => panic
  | Some c =>
      r ← invoke (CallCapabilities c cx request)
                 (fun h => clt_Capabilities h c cx request);
      match r with
      | inr err =>
          mret (inr (Errorf ("target returned RPC error for Capabilities("
                             ++ Quote (gpb.CapabilityRequest_String request)
                             ++ "): " ++ Error err)))
      | inl response => mret (inl response)
      end
  end.

Definition CapabilitiesWithString `{Collaborators}
    (target : loc) (cx : Context) (request : string)
  : M (gpb.CapabilityResponse + error) :=
  match UnmarshalText_CapabilityRequest request with
  | inr err =>
      mret (inr (Errorf ("unable to parse gnmi.CapabilityRequest from "
                         ++ Quote request ++ " : " ++ Error err)))
  | inl r => Capabilities target cx r
  end.

Definition Get `{Collaborators}
    (target : loc) (cx : Context) (request : gpb.GetRequest)
  : M (gpb.GetResponse + error) :=
  c ← Client target;
  match c with
  | None => panic
  | Some c =>
      r ← invoke (CallGet c cx request) (fun h => clt_Get h c cx request);
      match r with
      | inr err =>
          mret (inr (Errorf ("target returned RPC error for Get("
                             ++ Quote (gpb.GetRequest_String request)
                             ++ ") : " ++ Error err)))
      | inl response => mret (inl response)
      end
  end.

Definition GetWithString `{Collaborators}
    (target : loc) (cx : Context) (request : string)
  : M (gpb.GetResponse + error) :=
  if String.eqb request "" then
    mret (inr (NewInvalid "cannot get an empty request"))
  else
    match UnmarshalText_GetRequest request with
    | inr err =>
        mret (inr (Errorf ("unable to parse gnmi.GetRequest from "
                           ++ Quote request ++ " : " ++ Error err)))
    | inl r => Get target cx r
    end.

Definition Set_ `{Collaborators}
    (target : loc) (cx : Context) (request : gpb.SetRequest)
  : M (gpb.SetResponse + error) :=
  c ← Client target;
  match c with
  | None => panic
  | Some c =>
      r ← invoke (CallSet c cx request) (fun h => clt_Set h c cx request);
      match r with
      | inr err =>
          mret (inr (Errorf ("target returned RPC error for Set("
                             ++ Quote (gpb.SetRequest_String request)
                             ++ ") : " ++ Error err)))
      | inl response => mret (inl response)
      end
  end.

Definition SetWithString `{Collaborators}
    (target : loc) (cx : Context) (request : string)
  : M (gpb.SetResponse + error) :=
  if String.eqb request "" then
    mret (inr (NewInvalid "cannot set an empty request"))
  else
    match UnmarshalText_SetRequest request with
    | inr err =>
        mret (inr (Errorf ("unable to parse gnmi.SetRequest from "
                           ++ Quote request ++ " : " ++ Error err)))
    | inl r => Set_ target cx r
    end.

Definition Subscribe `{Collaborators}
    (target : loc) (cx : Context) (request : gpb.SubscribeRequest)
    (handler : ProtoHandler)
  : M (option error) :=
  match NewQuery request with
  | inr err => mret (Some err)
  | inl q =>
      d1 ← Destination target;
      d2 ← Destination target;
      d3 ← Destination target;
      d4 ← Destination target;
      d5 ← Destination target;
      let q :=
        mkQuery (client.Addrs d1) (client.Target d3) (client.Timeout d2)
                (client.Credentials d4) (client.TLS d5) handler
                (Q_UpdatesOnly q) (Q_SubReq q) in
      c ← invoke CallGnmiBaseClientFactory GnmiBaseClientFactory;
      err ← invoke (CallBaseSubscribe c cx q "gnmi")
                   (fun h => base_Subscribe h c cx q "gnmi");
      match err with
      | Some e =>
          mret (Some (Errorf ("could not create a gNMI for subscription: "
                              ++ Error e)))
      | None => mret None
      end
  end.

(** ** The subscription request builder *)

(** The body of [for i, p := range subscribeOptions.Paths]: entry [i] is
    built from path [i]; the first path that fails to parse ends the
    build. *)
Fixpoint subscriptionsOf `{Collaborators}
    (subscribeOptions : SubscribeOptions) (streamMode : gpb.SubscriptionMode)
    (paths : list (list string)) : list gpb.Subscription + error :=
  match paths with
  | [] => inl []
  | p :: rest =>
      match ParseGNMIElements p with
      | inr err => inr err
      | inl gnmiPath =>
          let gnmiPath := gpb.withOrigin gnmiPath (Origin subscribeOptions) in
          match subscriptionsOf subscribeOptions streamMode rest with
          | inr err => inr err
          | inl subs =>
              inl (gpb.mkSubscription gnmiPath streamMode
                     (SampleInterval subscribeOptions)
                     (HeartbeatInterval subscribeOptions) :: subs)
          end
      end
  end.

Definition NewSubscribeRequest `{Collaborators}
    (subscribeOptions : SubscribeOptions) : gpb.SubscribeRequest + error :=
  let upMode := ToUpper (Mode subscribeOptions) in
  let mode :=
    if String.eqb upMode
         (gpb.SubscriptionList_Mode_String gpb.SubscriptionList_ONCE)
    then inl gpb.SubscriptionList_ONCE
    else if String.eqb upMode
              (gpb.SubscriptionList_Mode_String gpb.SubscriptionList_POLL)
    then inl gpb.SubscriptionList_POLL
    else if String.eqb upMode ""
    then inl gpb.SubscriptionList_STREAM
    else if String.eqb upMode
              (gpb.SubscriptionList_Mode_String gpb.SubscriptionList_STREAM)
    then inl gpb.SubscriptionList_STREAM
    else inr (Errorf ("subscribe mode (" ++ Mode subscribeOptions
                      ++ ") invalid")) in
  match mode with
  | inr err => inr err
  | inl mode =>
      let upStream := ToUpper (StreamMode subscribeOptions) in
      let streamMode :=
        if String.eqb upStream
             (gpb.SubscriptionMode_String gpb.SubscriptionMode_ON_CHANGE)
        then inl gpb.SubscriptionMode_ON_CHANGE
        else if String.eqb upStream
                  (gpb.SubscriptionMode_String gpb.SubscriptionMode_SAMPLE)
        then inl gpb.SubscriptionMode_SAMPLE
        else if String.eqb upStream ""
        then inl gpb.SubscriptionMode_TARGET_DEFINED
        else if String.eqb upStream
                  (gpb.SubscriptionMode_String
                     gpb.SubscriptionMode_TARGET_DEFINED)
        then inl gpb.SubscriptionMode_TARGET_DEFINED
        else inr (Errorf ("subscribe stream mode ("
                          ++ StreamMode subscribeOptions ++ ") invalid")) in
      match streamMode with
      | inr err => inr err
      | inl streamMode =>
          match ParseGNMIElements (SplitPath (Prefix subscribeOptions)) with
          | inr err => inr err
          | inl prefixPath =>
              match subscriptionsOf subscribeOptions streamMode
                      (Paths subscribeOptions) with
              | inr err => inr err
              | inl subs =>
                  inl (gpb.SubscribeRequest_Subscribe
                         (gpb.mkSubscriptionList prefixPath subs mode
                            (UpdatesOnly subscribeOptions)))
              end
          end
      end
  end.

(** ** Reading a trace *)

(** The number of [Close()] calls on client [c] in a trace. *)
Definition closes (c : GnmiClient) (h : list Event) : nat :=
  List.length (List.filter (fun e => match e with
                                     | CallClose c' => Nat.eqb c c'
                                     | _ => false
                                     end) h).

(** [s] occurs in [msg]. *)
Definition contains (msg s : string) : Prop :=
  exists pre post : string, msg = pre ++ s ++ post.

(** The strings the two switches of [NewSubscribeRequest] accept, after
    upper-casing. *)
Definition modeNames : list string := ["ONCE"; "POLL"; ""; "STREAM"].
Definition streamModeNames : list string :=
  ["ON_CHANGE"; "SAMPLE"; ""; "TARGET_DEFINED"].

(** The TLS configuration [createDestination] holds after its CA step,
    before it chooses the client identity. *)
Definition caStep (device : topodevice.Device) : tls.Config :=
  tls.mkConfig
    (topodevice.Insecure (topodevice.TLS device))
    (Some (if String.eqb (topodevice.CaCert (topodevice.TLS device)) ""
           then getCertPoolDefault
           else getCertPool (topodevice.CaCert (topodevice.TLS device))))
    [].

(** ** Test doubles

    Stand-ins for the collaborators, in the manner of the package's test
    file: the factory hands out a new client at every call, clients answer
    every call without error, the text parser accepts the empty text as
    the empty message (as [Test_CapabilitiesWithString] expects). *)
Module stub.

Definition dials (h : list Event) : nat :=
  List.length (List.filter (fun e => match e with
                           | CallGnmiClientFactory _ _ => true
                           | _ => false
                           end) h).

Definition bases (h : list Event) : nat :=
  List.length (List.filter (fun e => match e with
                           | CallGnmiBaseClientFactory => true
                           | _ => false
                           end) h).

Definition parseElems (elms : list string) : gpb.Path + error :=
  inl (gpb.mkPath elms ""
         (map (fun e => gpb.mkPathElem e []) elms) "").

Definition newQuery (sr : gpb.SubscribeRequest) : Query + error :=
  match sr with
  | gpb.SubscribeRequest_Subscribe l =>
      inl (mkQuery [] (gpb.Target (gpb.sl_Prefix l)) 0%Z None None None
             (gpb.sl_UpdatesOnly l) (Some sr))
  | gpb.SubscribeRequest_Poll =>
      inr (Errorf "got *gnmi.SubscribeRequest, want gpb.SubscribeRequest_Subscribe as input")
  end.

Definition quote (s : string) : string :=
  String (ascii_of_nat 34) (s ++ String (ascii_of_nat 34) EmptyString).

Definition ok : Collaborators := {|
  GnmiClientFactory := fun h _ _ => inl (dials h);
  GnmiBaseClientFactory := fun h => bases h;
  clt_Close := fun _ _ => None;
  clt_Capabilities := fun _ _ _ _ =>
    inl (gpb.mkCapabilityResponse "gNMI_version: 1.0");
  clt_Get := fun _ _ _ r => inl (gpb.mkGetResponse (gpb.GetRequest_String r));
  clt_Set := fun _ _ _ _ => inl (gpb.mkSetResponse "response: <op: DELETE>");
  base_Subscribe := fun _ _ _ _ _ => None;
  UnmarshalText_CapabilityRequest := fun s =>
    if String.eqb s "" then inl (gpb.mkCapabilityRequest "")
    else inr (Errorf "unknown field");
  UnmarshalText_GetRequest := fun s => inl (gpb.mkGetRequest s);
  UnmarshalText_SetRequest := fun s => inl (gpb.mkSetRequest s);
  NewQuery := newQuery;
  SplitPath := fun s => if String.eqb s "" then [] else [s];
  ParseGNMIElements := parseElems;
  MapToUpper := fun s => s;
  Quote := quote
|}.

(** The same, with a factory that cannot reach the device. *)
Definition unreachable : Collaborators := {|
  GnmiClientFactory := fun _ _ _ => inr (Errorf "connection refused");
  GnmiBaseClientFactory := fun h => bases h;
  clt_Close := fun _ _ => None;
  clt_Capabilities := fun _ _ _ _ =>
    inl (gpb.mkCapabilityResponse "gNMI_version: 1.0");
  clt_Get := fun _ _ _ r => inl (gpb.mkGetResponse (gpb.GetRequest_String r));
  clt_Set := fun _ _ _ _ => inl (gpb.mkSetResponse "response: <op: DELETE>");
  base_Subscribe := fun _ _ _ _ _ => None;
  UnmarshalText_CapabilityRequest := fun s =>
    if String.eqb s "" then inl (gpb.mkCapabilityRequest "")
    else inr (Errorf "unknown field");
  UnmarshalText_GetRequest := fun s => inl (gpb.mkGetRequest s);
  UnmarshalText_SetRequest := fun s => inl (gpb.mkSetRequest s);
  NewQuery := newQuery;
  SplitPath := fun s => if String.eqb s "" then [] else [s];
  ParseGNMIElements := parseElems;
  MapToUpper := fun s => s;
  Quote := quote
|}.

(** A plaintext device and a secure one. *)
Definition device1 : topodevice.Device :=
  topodevice.mkDevice "localhost-1" "localhost:10161" "" "1.0.0" None
    (topodevice.mkCredentials "" "")
    (topodevice.mkTLS "" "" "" true false).

(** Secure devices: credentials only; paths and credentials; both
    paths; a certificate without key, with and without credentials. *)
Definition secure (cert key user password : string) : topodevice.Device :=
  topodevice.mkDevice "localhost-1" "localhost:10161" "" "1.0.0" None
    (topodevice.mkCredentials user password)
    (topodevice.mkTLS "" cert key false false).

Definition userPasswordOnly : topodevice.Device :=
  secure "" "" "User" "Password".

Definition withCert : topodevice.Device :=
  secure "testdata/client1.crt" "testdata/client1.key" "" "".

Definition certPathUserPassword : topodevice.Device :=
  secure "cert path" "" "User" "Password".

Definition certPathOnly : topodevice.Device :=
  secure "cert path" "" "" "".

(** A world where the target at 1 is connected to [device1] with client
    7 and registered. *)
Definition connected : World :=
  mkWorld
    (<[1%positive := mkTarget (createDestination device1).1 (Some 7) None]> ∅)
    (<[(createDestination device1).2 := 1%positive]> ∅)
    [CallGnmiClientFactory None (createDestination device1).1].

Definition streamOptions : SubscribeOptions :=
  mkSubscribeOptions false "" "Stream" "target_defined" 15 15
    [["a"; "b"; "c"]; ["d"]] "openconfig".

Definition badModeOptions : SubscribeOptions :=
  mkSubscribeOptions false "" "bogus" "target_defined" 15 15 [["a"]] "".

Definition badStreamModeOptions : SubscribeOptions :=
  mkSubscribeOptions false "" "once" "sometimes" 15 15 [["a"]] "".

(** A world with two fresh targets, [Target{}], at 1 and 2. *)
Definition twoTargets : World :=
  mkWorld (<[1%positive := zeroTarget]> (<[2%positive := zeroTarget]> ∅)) ∅ [].

End stub.

(** ** Reading a device descriptor *)

(** Exactly one of the certificate path and the key path is given. *)
Definition onePath (device : topodevice.Device) : Prop :=
  (topodevice.Cert (topodevice.TLS device) = ""
   /\ topodevice.Key (topodevice.TLS device) <> "")
  \/ (topodevice.Cert (topodevice.TLS device) <> ""
      /\ topodevice.Key (topodevice.TLS device) = "").

(** Username and password are both given. *)
Definition bothCredentials (device : topodevice.Device) : Prop :=
  topodevice.User (topodevice.Credentials device) <> ""
  /\ topodevice.Password (topodevice.Credentials device) <> "".

(** ** More test doubles *)
Module fixtures.

(** Clients whose [Close] fails. *)
Definition closeFails : Collaborators := {|
  GnmiClientFactory := fun h _ _ => inl (stub.dials h);
  GnmiBaseClientFactory := fun h => stub.bases h;
  clt_Close := fun _ _ => Some (Errorf "close failed");
  clt_Capabilities := fun _ _ _ _ => inr (Errorf "unavailable");
  clt_Get := fun _ _ _ _ => inr (Errorf "unavailable");
  clt_Set := fun _ _ _ _ => inr (Errorf "unavailable");
  base_Subscribe := fun _ _ _ _ _ => Some (Errorf "unavailable");
  UnmarshalText_CapabilityRequest := fun s =>
    if String.eqb s "" then inl (gpb.mkCapabilityRequest "")
    else inr (Errorf "unknown field");
  UnmarshalText_GetRequest := fun s =>
    if String.eqb s "" then inl (gpb.mkGetRequest "")
    else inr (Errorf "unknown field");
  UnmarshalText_SetRequest := fun s =>
    if String.eqb s "" then inl (gpb.mkSetRequest "")
    else inr (Errorf "unknown field");
  NewQuery := stub.newQuery;
  SplitPath := fun s => [s];
  ParseGNMIElements := fun elms =>
    if bool_decide ("" ∈ elms) then inr (Errorf "empty element")
    else stub.parseElems elms;
  MapToUpper := fun s => s;
  Quote := stub.quote
|}.

(** A second device, with another ID. *)
Definition device2 : topodevice.Device :=
  topodevice.mkDevice "localhost-2" "localhost:10162" "" "1.0.0" (Some 5%Z)
    (topodevice.mkCredentials "" "")
    (topodevice.mkTLS "" "" "" true false).

(** A registry with two sessions. *)
Definition twoKeys : World :=
  mkWorld
    (<[1%positive := mkTarget (createDestination stub.device1).1 (Some 7) None]>
       (<[2%positive := mkTarget (createDestination device2).1 (Some 8) None]>
          ∅))
    (<[(createDestination stub.device1).2 := 1%positive]>
       (<[(createDestination device2).2 := 2%positive]> ∅))
    [].

Definition streamRequest : gpb.SubscribeRequest :=
  gpb.SubscribeRequest_Subscribe
    (gpb.mkSubscriptionList (gpb.mkPath [] "" [] "") []
       gpb.SubscriptionList_STREAM false).

(** Options whose second path has an empty element, and options with an
    empty element in the prefix. *)
Definition badPathOptions : SubscribeOptions :=
  mkSubscribeOptions true "p" "poll" "sample" 10 20
    [["a"]; ["b"; ""]; [""]] "".

Definition badPrefixOptions : SubscribeOptions :=
  mkSubscribeOptions true "" "poll" "sample" 10 20 [["a"]; [""]] "".


End fixtures.

(** ** The stub client of the package's tests

    [TestClientImpl.Get] of clientManager_test.go, on the messages as the
    stub reads and builds them: slices of pointers are lists of options,
    [None] the nil pointer; an index out of range is a panic, [None] as
    the result. *)
Module testclient.

Record GetRequest : Type := mkGetRequest {
  Path : list (option gpb.Path)
}.

(** [Val] is always a [TypedValue_StringVal]. *)
Record Update : Type := mkUpdate {
  U_Path : option gpb.Path;
  U_Val : string
}.

Record Notification : Type := mkNotification {
  N_Update : list (option Update)
}.

Record GetResponse : Type := mkGetResponse {
  R_Notification : list (option Notification)
}.

(** [s[i] = x] *)
Definition setIndex {A : Type} (s : list A) (i : nat) (x : A)
  : option (list A) :=
  if decide (i < length s) then Some (<[i := x]> s) else None.

(** [strconv.Itoa] of a slice index *)
Definition Itoa (n : nat) : string := pretty n.

(** The loop body at [notificationIndex]. *)
Definition getStep (r : GetRequest) (notifications : list (option Notification))
    (notificationIndex : nat) : option (list (option Notification)) :=
  notifications ←
    setIndex notifications notificationIndex (Some (mkNotification []));
  let updates := replicate 1 None in
  path ← Path r !! notificationIndex;
  let update := mkUpdate path (Itoa notificationIndex) in
  updates ← setIndex updates notificationIndex (Some update);
  setIndex notifications notificationIndex (Some (mkNotification updates)).

(** [for notificationIndex := range response.Notification] *)
Fixpoint getLoop (r : GetRequest) (indices : list nat)
    (notifications : list (option Notification))
  : option (list (option Notification)) :=
  match indices with
  | [] => Some notifications
  | i :: rest =>
      notifications ← getStep r notifications i;
      getLoop r rest notifications
  end.

Definition Get (r : GetRequest) : option GetResponse :=
  let n := length (Path r) in
  notifications ← getLoop r (seq 0 n) (replicate n None);
  Some (mkGetResponse notifications).

End testclient.

(** * Properties *)

(** ** The resolver *)

Section Resolver.

Implicit Types device : topodevice.Device.

Lemma eqb_empty_true (s : string) : s = "" -> String.eqb s "" = true.
Proof. intros ->. reflexivity. Qed.

Lemma eqb_empty_false (s : string) : s <> "" -> String.eqb s "" = false.
Proof. intros Hs. by apply String.eqb_neq. Qed.

(** A plaintext device gets no TLS configuration. *)
Lemma createDestination_plain device :
  topodevice.Plain (topodevice.TLS device) = true ->
  client.TLS (createDestination device).1 = None
  /\ client.Credentials (createDestination device).1 = None.
Proof. unfold createDestination. intros ->. done. Qed.

(** The key is built from the device's ID and version only. *)
Lemma createDestination_key device :
  (createDestination device).2
  = NewVersionedID (topodevice.ID device) (topodevice.Version device).
Proof. reflexivity. Qed.

(** C1, as the code has it.  For a secure device the client identity is
    chosen in this order: no certificate path and no key path: the
    embedded default keypair, whatever the credentials are; both paths:
    that keypair; exactly one path, and both username and password: the
    credentials, with no client certificate.  In the first two cases no
    credentials are attached; in all three the CA step is kept. *)
Theorem createDestination_client_identity device :
  topodevice.Plain (topodevice.TLS device) = false ->
  let d := (createDestination device).1 in
  let t := topodevice.TLS device in
  let c := topodevice.Credentials device in
  (topodevice.Cert t = "" -> topodevice.Key t = "" ->
     client.TLS d
     = Some (tls.withCertificates (caStep device)
               [tls.X509KeyPair tls.DefaultClientCrt tls.DefaultClientKey])
     /\ client.Credentials d = None)
  /\ (topodevice.Cert t <> "" -> topodevice.Key t <> "" ->
        client.TLS d
        = Some (tls.withCertificates (caStep device)
                  [tls.LoadX509KeyPair (topodevice.Cert t) (topodevice.Key t)])
        /\ client.Credentials d = None)
  /\ ((topodevice.Cert t = "" /\ topodevice.Key t <> "")
      \/ (topodevice.Cert t <> "" /\ topodevice.Key t = "") ->
      topodevice.User c <> "" -> topodevice.Password c <> "" ->
        client.TLS d = Some (caStep device)
        /\ client.Credentials d
           = Some (client.mkCredentials (topodevice.User c)
                                        (topodevice.Password c))).
Proof.
  intros Hplain d t c. subst d t c.
  unfold createDestination, caStep. rewrite Hplain.
  split; [|split].
  - intros -> ->. simpl.
    by destruct (topodevice.Insecure _), (String.eqb _ _).
  - intros Hc Hk.
    rewrite (eqb_empty_false _ Hc), (eqb_empty_false _ Hk). simpl.
    by destruct (topodevice.Insecure _), (String.eqb _ _).
  - intros [[-> Hk] | [Hc ->]] Hu Hp;
      rewrite ?(eqb_empty_false _ Hk), ?(eqb_empty_false _ Hc),
              (eqb_empty_false _ Hu), (eqb_empty_false _ Hp); simpl;
      by destruct (topodevice.Insecure _), (String.eqb _ _).
Qed.

(** C1 at three devices, one per case. *)
Lemma createDestination_client_identity_witness :
  (client.TLS (createDestination stub.userPasswordOnly).1
   = Some (tls.mkConfig false (Some getCertPoolDefault)
             [tls.X509KeyPair tls.DefaultClientCrt tls.DefaultClientKey])
   /\ client.Credentials (createDestination stub.userPasswordOnly).1 = None)
  /\ (client.TLS (createDestination stub.withCert).1
      = Some (tls.mkConfig false (Some getCertPoolDefault)
                [tls.LoadX509KeyPair "testdata/client1.crt"
                                     "testdata/client1.key"])
      /\ client.Credentials (createDestination stub.withCert).1 = None)
  /\ (client.TLS (createDestination stub.certPathUserPassword).1
      = Some (tls.mkConfig false (Some getCertPoolDefault) [])
      /\ client.Credentials (createDestination stub.certPathUserPassword).1
         = Some (client.mkCredentials "User" "Password")).
Proof.
  split; [|split].
  - apply (createDestination_client_identity stub.userPasswordOnly);
      reflexivity.
  - apply (createDestination_client_identity stub.withCert);
      [reflexivity | discriminate | discriminate].
  - apply (createDestination_client_identity stub.certPathUserPassword);
      [reflexivity | right; split; [discriminate | reflexivity]
      | discriminate | discriminate].
Defined.

(** C1 fails as stated: a secure device with no certificate and key
    paths but with username and password gets the default keypair and no
    credentials. *)
Lemma createDestination_credentials_need_a_path :
  let device := stub.userPasswordOnly in
  let d := (createDestination device).1 in
  topodevice.Plain (topodevice.TLS device) = false
  /\ topodevice.Cert (topodevice.TLS device) = ""
  /\ topodevice.Key (topodevice.TLS device) = ""
  /\ topodevice.User (topodevice.Credentials device) = "User"
  /\ topodevice.Password (topodevice.Credentials device) = "Password"
  /\ client.Credentials d = None
  /\ tls.Certificates <$> client.TLS d
     = Some [tls.X509KeyPair tls.DefaultClientCrt tls.DefaultClientKey].
Proof. repeat split. Qed.

(** C10.  A secure device with exactly one of certificate path and key
    path, and without both username and password, gets a TLS
    configuration that holds InsecureSkipVerify and nothing else: the CA
    pool of the earlier step is gone, there is no client certificate,
    and no credentials are attached. *)
Theorem createDestination_degraded_fallback device :
  topodevice.Plain (topodevice.TLS device) = false ->
  (topodevice.Cert (topodevice.TLS device) = ""
   /\ topodevice.Key (topodevice.TLS device) <> "")
  \/ (topodevice.Cert (topodevice.TLS device) <> ""
      /\ topodevice.Key (topodevice.TLS device) = "") ->
  ~ (topodevice.User (topodevice.Credentials device) <> ""
     /\ topodevice.Password (topodevice.Credentials device) <> "") ->
  client.TLS (createDestination device).1
  = Some (tls.mkConfig true None [])
  /\ client.Credentials (createDestination device).1 = None.
Proof.
  intros Hplain Hone Hcred.
  assert (Hb : negb (String.eqb (topodevice.User
                                   (topodevice.Credentials device)) "")
               && negb (String.eqb (topodevice.Password
                                      (topodevice.Credentials device)) "")
               = false).
  { apply not_true_is_false. intros [Hu Hp]%andb_prop.
    apply Hcred. split; intros Heq; rewrite Heq in *; discriminate. }
  unfold createDestination. rewrite Hplain, Hb.
  destruct Hone as [[-> Hk] | [Hc ->]];
    by rewrite ?(eqb_empty_false _ Hk), ?(eqb_empty_false _ Hc).
Qed.

Lemma createDestination_degraded_fallback_witness :
  client.TLS (createDestination stub.certPathOnly).1
  = Some (tls.mkConfig true None [])
  /\ client.Credentials (createDestination stub.certPathOnly).1 = None.
Proof.
  apply (createDestination_degraded_fallback stub.certPathOnly).
  - reflexivity.
  - right. split; [discriminate | reflexivity].
  - intros [Hu _]. by apply Hu.
Defined.

End Resolver.

(** ** The registry *)

Section Registry.

Context {E : Collaborators}.

Implicit Types (w : World) (target : loc) (key : string).

Local Ltac run :=
  unfold ConnectTarget, GetTarget, NewTargetItem, Close, Client, Destination,
    readTargets, store, deref, invoke, panic, mbind, M_bind, mret, M_ret;
  simpl.

(** The names listed on a miss are the keys of the map, each once. *)
Lemma targetNames_spec (m : gmap string loc) :
  NoDup (targetNames m)
  /\ forall k : string, k ∈ targetNames m <-> is_Some (m !! k).
Proof.
  unfold targetNames. split; [apply NoDup_fst_map_to_list|].
  intros k. rewrite list_elem_of_fmap. split.
  - intros [[k' l] [-> Hin]]. apply elem_of_map_to_list in Hin. by exists l.
  - intros [l Hl]. exists (k, l). split; [done|].
    by apply elem_of_map_to_list.
Qed.

(** A hit returns the stored session and changes nothing. *)
Lemma GetTarget_hit w key target :
  targets w !! key = Some target ->
  GetTarget key w = Returned (inl target) w.
Proof. intros Hk. run. by rewrite Hk. Qed.

Lemma append_assoc (a b c : string) : (a ++ b) ++ c = a ++ (b ++ c).
Proof.
  induction a as [|x a IH]; [reflexivity|].
  change (String x ((a ++ b) ++ c) = String x (a ++ (b ++ c))).
  by f_equal.
Qed.

Lemma append_nil_r (a : string) : a ++ "" = a.
Proof.
  induction a as [|x a IH]; [reflexivity|].
  change (String x (a ++ "") = String x a). by f_equal.
Qed.

Lemma contains_refl (s : string) : contains s s.
Proof. exists "", "". simpl. by rewrite append_nil_r. Qed.

Lemma contains_app_l (pre msg s : string) :
  contains msg s -> contains (pre ++ msg) s.
Proof.
  intros (a & b & ->). exists (pre ++ a), b. by rewrite append_assoc.
Qed.

Lemma contains_app_r (msg post s : string) :
  contains msg s -> contains (msg ++ post) s.
Proof.
  intros (a & b & ->). exists a, (b ++ post). by rewrite !append_assoc.
Qed.

(** Every element of a slice is printed by [%v]. *)
Lemma fmtSlice_contains (l : list string) (k : string) :
  k ∈ l -> contains (fmtSlice l) k.
Proof.
  intros Hin. unfold fmtSlice. apply contains_app_l, contains_app_r.
  induction l as [|x l IH]; [by apply not_elem_of_nil in Hin|].
  apply elem_of_cons in Hin. destruct l as [|y l].
  - destruct Hin as [->|Hin]; [apply contains_refl|].
    by apply not_elem_of_nil in Hin.
  - change (joinSpace (x :: y :: l)) with (x ++ " " ++ joinSpace (y :: l)).
    destruct Hin as [->|Hin].
    + apply contains_app_r, contains_refl.
    + by apply contains_app_l, contains_app_l, IH.
Qed.

(** C8.  A lookup of a key that is not registered returns, without a
    panic and without a session, an error whose message lists the keys
    the registry holds, each once: the message names the key that was
    looked up and every registered key occurs in it; the registry, the
    targets and the trace are as before. *)
Theorem GetTarget_miss w key :
  targets w !! key = None ->
  exists (names : list string) (msg : string),
    GetTarget key w = Returned (inr (Errorf msg)) w
    /\ msg = "gNMI client for " ++ key
             ++ " does not exist. Known clients: "
             ++ "[" ++ joinSpace names ++ "]"
    /\ NoDup names
    /\ (forall k : string, k ∈ names <-> is_Some (targets w !! k))
    /\ contains msg key
    /\ (forall k : string, is_Some (targets w !! k) -> contains msg k).
Proof.
  intros Hk. exists (targetNames (targets w)). eexists.
  split; [run; by rewrite Hk|]. split; [reflexivity|].
  destruct (targetNames_spec (targets w)) as [Hnd Hin].
  split; [exact Hnd|]. split; [exact Hin|]. split.
  - apply contains_app_l, contains_app_r, contains_refl.
  - intros k Hreg. apply contains_app_l, contains_app_l, contains_app_l.
    apply (fmtSlice_contains (targetNames (targets w)) k). by apply Hin.
Qed.

(** With a receiver that exists and a factory that answers with a
    client, [ConnectTarget] returns the key and no error. *)
Lemma ConnectTarget_ok w target cx device t c :
  heap w !! target = Some t ->
  GnmiClientFactory (trace w) cx (createDestination device).1 = inl c ->
  ConnectTarget target cx device w
  = Returned ((createDestination device).2, None)
      (mkWorld
         (<[target := mkTarget (createDestination device).1 (Some c) cx]>
            (heap w))
         (<[(createDestination device).2 := target]> (targets w))
         (trace w
          ++ CallGnmiClientFactory cx (createDestination device).1
             :: match clt t with
                | Some old => [CallClose old]
                | None => []
                end)).
Proof.
  intros Ht Hc. unfold ConnectTarget.
  destruct (createDestination device) as [dst key] eqn:Hd. simpl in *.
  run. rewrite Hc. simpl. rewrite Ht.
  destruct (clt t) as [old|]; simpl; [|done].
  by rewrite <- app_assoc.
Qed.

(** The outcomes of [ConnectTarget], read backwards from a success. *)
Lemma ConnectTarget_inv w w' target cx device key :
  ConnectTarget target cx device w = Returned (key, None) w' ->
  exists t c,
    heap w !! target = Some t
    /\ GnmiClientFactory (trace w) cx (createDestination device).1 = inl c
    /\ key = (createDestination device).2.
Proof.
  unfold ConnectTarget.
  destruct (createDestination device) as [dst k] eqn:Hd. simpl.
  run. destruct (GnmiClientFactory _ _ _) as [c|err]; [|done]. simpl.
  destruct (heap w !! target) as [t|] eqn:Ht; [|done].
  destruct (clt t); simpl; intros [= <- <-]; by exists t, c.
Qed.

(** C2.  When the factory fails, [ConnectTarget] returns the empty key
    and an error that wraps the factory's; the heap of targets (so every
    session's destination, client and context) and the registry are
    those of before, and the only call made is the one on the
    factory. *)
Theorem ConnectTarget_factory_failure w target cx device err :
  GnmiClientFactory (trace w) cx (createDestination device).1 = inr err ->
  exists w',
    ConnectTarget target cx device w
    = Returned ("", Some (Errorf ("could not create a gNMI client: "
                                  ++ Error err))) w'
    /\ heap w' = heap w
    /\ targets w' = targets w
    /\ trace w'
       = (trace w
          ++ [CallGnmiClientFactory cx (createDestination device).1])%list
    /\ forall key, GetTarget key w' = match GetTarget key w with
                                      | Returned r _ => Returned r w'
                                      | Panicked _ => Panicked w'
                                      end.
Proof.
  intros Herr. unfold ConnectTarget.
  destruct (createDestination device) as [dst k] eqn:Hd. simpl in *.
  run. rewrite Herr. simpl. eexists. split; [reflexivity|].
  repeat split. intros key. simpl. by destruct (targets w !! key).
Qed.

(** C3, on one session.  When [ConnectTarget] succeeds twice on the same
    target for devices of the same key, the second call makes exactly
    two calls: one on the factory and one [Close] on the client of the
    first call.  After it the registry maps the key to that target, the
    target holds the second destination, client and context, and a
    lookup of the key returns the target.  If the target did not hold
    the first client before the first call, the first client has been
    closed once in all. *)
Theorem ConnectTarget_twice_same_target
    w w1 w2 target cx1 cx2 device1 device2 key :
  ConnectTarget target cx1 device1 w = Returned (key, None) w1 ->
  ConnectTarget target cx2 device2 w1 = Returned (key, None) w2 ->
  exists c1 c2 : GnmiClient,
    GnmiClientFactory (trace w) cx1 (createDestination device1).1 = inl c1
    /\ GnmiClientFactory (trace w1) cx2 (createDestination device2).1
       = inl c2
    /\ clt <$> heap w1 !! target = Some (Some c1)
    /\ trace w2
       = (trace w1
          ++ [CallGnmiClientFactory cx2 (createDestination device2).1;
              CallClose c1])%list
    /\ targets w2 !! key = Some target
    /\ heap w2 !! target
       = Some (mkTarget (createDestination device2).1 (Some c2) cx2)
    /\ GetTarget key w2 = Returned (inl target) w2
    /\ (c1 <> c2 -> clt <$> heap w2 !! target <> Some (Some c1))
    /\ (clt <$> heap w !! target <> Some (Some c1) ->
        closes c1 (trace w2) = S (closes c1 (trace w))).
Proof.
  intros H1 H2.
  destruct (ConnectTarget_inv _ _ _ _ _ _ H1) as (t0 & c1 & Ht0 & Hc1 & Hk1).
  destruct (ConnectTarget_inv _ _ _ _ _ _ H2) as (t1 & c2 & Ht1 & Hc2 & Hk2).
  rewrite (ConnectTarget_ok _ _ _ _ _ _ Ht0 Hc1) in H1.
  rewrite (ConnectTarget_ok _ _ _ _ _ _ Ht1 Hc2) in H2.
  injection H1 as _ <-. injection H2 as _ <-. simpl in *.
  rewrite lookup_insert_eq in Ht1. injection Ht1 as <-. simpl.
  exists c1, c2. rewrite !lookup_insert_eq. simpl.
  assert (Hreg : (<[(createDestination device2).2:=target]>
                    (<[(createDestination device1).2:=target]> (targets w)))
                 !! key = Some target).
  { rewrite Hk2. apply lookup_insert_eq. }
  split; [done|]. split; [done|]. split; [done|]. split; [done|].
  split; [done|]. split; [done|]. split; [|split].
  - by apply GetTarget_hit.
  - intros Hne [= Heq]. by apply Hne.
  - intros Hfresh. unfold closes.
    rewrite !List.filter_app, !List.length_app. simpl.
    rewrite Nat.eqb_refl. simpl.
    destruct (clt t0) as [old|] eqn:Hold; simpl; [|lia].
    destruct (Nat.eqb c1 old) eqn:Heq; simpl; [|lia].
    apply Nat.eqb_eq in Heq. subst old.
    rewrite Ht0 in Hfresh. simpl in Hfresh. by rewrite Hold in Hfresh.
Qed.

End Registry.

(** The registry properties at the test doubles. *)

Lemma GetTarget_miss_witness :
  GetTarget "no such target" stub.connected
  = Returned
      (inr (Errorf "gNMI client for no such target does not exist. Known clients: [localhost-1:1.0.0]"))
      stub.connected
  /\ exists msg : string,
       GetTarget "localhost-3:1.0.0" fixtures.twoKeys
       = Returned (inr (Errorf msg)) fixtures.twoKeys
       /\ contains msg "localhost-3:1.0.0"
       /\ contains msg "localhost-1:1.0.0"
       /\ contains msg "localhost-2:1.0.0".
Proof.
  split.
  - destruct (GetTarget_miss stub.connected "no such target" eq_refl)
      as (names & msg & Hrun & _ & _ & _ & _ & _).
    rewrite Hrun. vm_compute in Hrun. injection Hrun as <-. reflexivity.
  - destruct (GetTarget_miss fixtures.twoKeys "localhost-3:1.0.0" eq_refl)
      as (names & msg & Hrun & _ & _ & _ & Hkey & Hall).
    exists msg. split; [exact Hrun|]. split; [exact Hkey|].
    split; apply Hall; vm_compute; eauto.
Defined.

Lemma ConnectTarget_factory_failure_witness :
  exists w',
    @ConnectTarget stub.unreachable 1%positive (Some 3) stub.device1
      stub.connected
    = Returned ("", Some (Errorf "could not create a gNMI client: connection refused")) w'
    /\ heap w' = heap stub.connected
    /\ targets w' = targets stub.connected
    /\ trace w'
       = (trace stub.connected
          ++ [CallGnmiClientFactory (Some 3)
                (createDestination stub.device1).1])%list
    /\ forall key, GetTarget key w' = match GetTarget key stub.connected with
                                      | Returned r _ => Returned r w'
                                      | Panicked _ => Panicked w'
                                      end.
Proof.
  apply (@ConnectTarget_factory_failure stub.unreachable stub.connected
           1%positive (Some 3) stub.device1 (Errorf "connection refused")).
  reflexivity.
Defined.

Lemma ConnectTarget_twice_same_target_witness :
  exists w1 w2 : World,
    @ConnectTarget stub.ok 1%positive None stub.device1 stub.twoTargets
    = Returned ("localhost-1:1.0.0", None) w1
    /\ @ConnectTarget stub.ok 1%positive (Some 5) stub.device1 w1
       = Returned ("localhost-1:1.0.0", None) w2
    /\ trace w2
       = (trace w1
          ++ [CallGnmiClientFactory (Some 5) (createDestination stub.device1).1;
              CallClose 0])%list
    /\ targets w2 !! "localhost-1:1.0.0" = Some 1%positive
    /\ heap w2 !! 1%positive
       = Some (mkTarget (createDestination stub.device1).1 (Some 1) (Some 5))
    /\ closes 0 (trace w2) = 1.
Proof.
  pose proof (@ConnectTarget_ok stub.ok stub.twoTargets 1%positive None
                stub.device1 zeroTarget 0 eq_refl eq_refl) as H1.
  match type of H1 with _ = Returned _ ?v => set (w1 := v) in H1 end.
  pose proof (@ConnectTarget_ok stub.ok w1 1%positive (Some 5)
                stub.device1
                (mkTarget (createDestination stub.device1).1 (Some 0) None)
                1 eq_refl eq_refl) as H2.
  match type of H2 with _ = Returned _ ?v => set (w2 := v) in H2 end.
  exists w1, w2.
  destruct (@ConnectTarget_twice_same_target stub.ok stub.twoTargets w1 w2
              1%positive None (Some 5) stub.device1 stub.device1
              "localhost-1:1.0.0" H1 H2)
    as (c1 & c2 & Hc1 & Hc2 & _ & Htr & Hreg & Hheap & _ & _ & Hcl).
  injection Hc1 as <-. injection Hc2 as <-.
  split; [exact H1|]. split; [exact H2|]. split; [exact Htr|].
  split; [exact Hreg|]. split; [exact Hheap|].
  apply Hcl. vm_compute. discriminate.
Defined.

(** C3 fails as stated when the second connect is made on another target:
    both calls succeed for the same key, the registry then maps the key to
    the second target, whose client is the second one, and the first
    client, still held by the first target, has not been closed. *)
Lemma ConnectTarget_twice_other_target_no_close :
  exists w1 w2 : World,
    @ConnectTarget stub.ok 1%positive None stub.device1 stub.twoTargets
    = Returned ("localhost-1:1.0.0", None) w1
    /\ @ConnectTarget stub.ok 2%positive None stub.device1 w1
       = Returned ("localhost-1:1.0.0", None) w2
    /\ clt <$> heap w1 !! 1%positive = Some (Some 0)
    /\ targets w2 !! "localhost-1:1.0.0" = Some 2%positive
    /\ clt <$> heap w2 !! 2%positive = Some (Some 1)
    /\ clt <$> heap w2 !! 1%positive = Some (Some 0)
    /\ closes 0 (trace w2) = 0
    /\ trace w2
       = [CallGnmiClientFactory None (createDestination stub.device1).1;
          CallGnmiClientFactory None (createDestination stub.device1).1].
Proof.
  pose proof (@ConnectTarget_ok stub.ok stub.twoTargets 1%positive None
                stub.device1 zeroTarget 0 eq_refl eq_refl) as H1.
  match type of H1 with _ = Returned _ ?v => set (w1 := v) in H1 end.
  pose proof (@ConnectTarget_ok stub.ok w1 2%positive None
                stub.device1 zeroTarget 1 eq_refl eq_refl) as H2.
  match type of H2 with _ = Returned _ ?v => set (w2 := v) in H2 end.
  exists w1, w2.
  split; [exact H1|]. split; [exact H2|]. vm_compute. repeat split.
Qed.

(** ** Target sessions *)

Section Sessions.

Context {E : Collaborators}.

Implicit Types (w : World) (target : loc) (cx : Context).

Local Ltac run :=
  unfold Subscribe, CapabilitiesWithString, GetWithString, SetWithString,
    Capabilities, Get, Set_, Close, Client, Destination, TargetContext,
    store, deref, invoke, panic, mbind, M_bind, mret, M_ret;
  simpl.

(** [Capabilities] on a session that holds a client: one call on that
    client, whose answer is returned or wrapped. *)
Lemma Capabilities_calls_client w target cx request t c :
  heap w !! target = Some t ->
  clt t = Some c ->
  exists r,
    Capabilities target cx request w
    = Returned r (mkWorld (heap w) (targets w)
                    (trace w ++ [CallCapabilities c cx request])).
Proof.
  intros Ht Hc. run. rewrite Ht, Hc. simpl.
  destruct (clt_Capabilities _ _ _ _); eauto.
Qed.

(** C4, as the code has it.  [GetWithString] and [SetWithString] answer
    the empty string with the typed invalid-argument error, "cannot get
    an empty request" and "cannot set an empty request", and leave the
    world, trace included, as it was.  [CapabilitiesWithString] has no
    such check: the empty string goes to the text parser, and what the
    parser returns is sent to the client by [Capabilities]; only a parse
    failure stops the call, with an untyped "unable to parse" error. *)
Theorem WithString_empty w target cx :
  GetWithString target cx "" w
  = Returned (inr (NewInvalid "cannot get an empty request")) w
  /\ contains "cannot get an empty request" "empty request"
  /\ SetWithString target cx "" w
     = Returned (inr (NewInvalid "cannot set an empty request")) w
  /\ contains "cannot set an empty request" "empty request"
  /\ CapabilitiesWithString target cx "" w
     = match UnmarshalText_CapabilityRequest "" with
       | inl r => Capabilities target cx r w
       | inr err =>
           Returned
             (inr (Errorf ("unable to parse gnmi.CapabilityRequest from "
                           ++ Quote "" ++ " : " ++ Error err))) w
       end.
Proof.
  split; [reflexivity|]. split; [by exists "cannot get an ", ""|].
  split; [reflexivity|]. split; [by exists "cannot set an ", ""|].
  unfold CapabilitiesWithString.
  by destruct (UnmarshalText_CapabilityRequest "").
Qed.

(** C5, as the code has it.  On a session that holds a client, [Close]
    makes one call, [Close] on that client, returns its result and
    leaves every target and the registry as they were.  On a session
    whose client is nil it panics. *)
Theorem Close_spec w target t :
  heap w !! target = Some t ->
  (forall c, clt t = Some c ->
     Close target w
     = Returned (clt_Close (trace w) c)
         (mkWorld (heap w) (targets w) (trace w ++ [CallClose c])))
  /\ (clt t = None -> Close target w = Panicked w).
Proof.
  intros Ht. split.
  - intros c Hc. run. by rewrite Ht, Hc.
  - intros Hc. run. by rewrite Ht, Hc.
Qed.

(** A request [NewQuery] rejects ends [Subscribe] before any call. *)
Lemma Subscribe_no_query w target cx request handler err :
  NewQuery request = inr err ->
  Subscribe target cx request handler w = Returned (Some err) w.
Proof. intros Hq. run. by rewrite Hq. Qed.

(** C9.  [Subscribe] on an existing session leaves the heap of targets
    (so the session's client, destination and context) and the registry
    as they were, and makes no call on any pooled client.  When
    [NewQuery] accepts the request it makes exactly two calls: one on
    the base client factory, and [Subscribe] on the client that call
    returned, with the query built from the session's destination and
    the handler.  When [NewQuery] rejects the request it makes no call
    and returns that error. *)
Theorem Subscribe_dedicated_client w target cx request handler t :
  heap w !! target = Some t ->
  exists (r : option error) (calls : list Event),
    Subscribe target cx request handler w
    = Returned r (mkWorld (heap w) (targets w) (trace w ++ calls))
    /\ Forall (fun e => onClient e = None) calls
    /\ match NewQuery request with
       | inr err => calls = [] /\ r = Some err
       | inl q =>
           let c := GnmiBaseClientFactory (trace w) in
           let q' :=
             mkQuery (client.Addrs (dest t)) (client.Target (dest t))
               (client.Timeout (dest t)) (client.Credentials (dest t))
               (client.TLS (dest t)) handler (Q_UpdatesOnly q) (Q_SubReq q) in
           calls = [CallGnmiBaseClientFactory;
                    CallBaseSubscribe c cx q' "gnmi"]
           /\ r = match base_Subscribe
                          (trace w ++ [CallGnmiBaseClientFactory])
                          c cx q' "gnmi" with
                  | Some e =>
                      Some (Errorf
                              ("could not create a gNMI for subscription: "
                               ++ Error e))
                  | None => None
                  end
       end.
Proof.
  intros Ht. run.
  destruct (NewQuery request) as [q|err].
  - repeat (rewrite Ht; simpl).
    eexists _, [_; _]. split; [|split; [|split; reflexivity]].
    + rewrite <- app_assoc. simpl.
      destruct (base_Subscribe _ _ _ _ _); reflexivity.
    + by repeat constructor.
  - exists (Some err), []. rewrite app_nil_r. destruct w. by repeat split.
Qed.

End Sessions.

(** The session properties at the test doubles. *)

Lemma Close_spec_witness :
  @Close stub.ok 1%positive stub.connected
  = Returned None
      (mkWorld (heap stub.connected) (targets stub.connected)
         (trace stub.connected ++ [CallClose 7]))
  /\ @Close stub.ok 2%positive stub.twoTargets = Panicked stub.twoTargets.
Proof.
  split.
  - apply (proj1 (@Close_spec stub.ok stub.connected 1%positive
                    (mkTarget (createDestination stub.device1).1 (Some 7) None)
                    eq_refl) 7 eq_refl).
  - apply (proj2 (@Close_spec stub.ok stub.twoTargets 2%positive zeroTarget
                    eq_refl) eq_refl).
Defined.

(** C5 fails as stated: [Close] on a fresh [Target{}], whose client is
    nil, panics. *)
Lemma Close_nil_client_panics :
  clt <$> heap stub.twoTargets !! 1%positive = Some None
  /\ @Close stub.ok 1%positive stub.twoTargets = Panicked stub.twoTargets.
Proof. split; reflexivity. Qed.

(** C4 fails as stated for [CapabilitiesWithString]: with a parser that
    reads the empty text as the empty request, the empty string is no
    error, and the client of the session receives a [Capabilities]
    call. *)
Lemma CapabilitiesWithString_empty_reaches_client :
  @CapabilitiesWithString stub.ok 1%positive None "" stub.connected
  = Returned (inl (gpb.mkCapabilityResponse "gNMI_version: 1.0"))
      (mkWorld (heap stub.connected) (targets stub.connected)
         (trace stub.connected
          ++ [CallCapabilities 7 None (gpb.mkCapabilityRequest "")])).
Proof. reflexivity. Qed.

Lemma Subscribe_dedicated_client_witness :
  exists (r : option error) (calls : list Event),
    @Subscribe stub.ok 1%positive None
      (gpb.SubscribeRequest_Subscribe
         (gpb.mkSubscriptionList (gpb.mkPath [] "" [] "") []
            gpb.SubscriptionList_STREAM false))
      (Some 4) stub.connected
    = Returned r (mkWorld (heap stub.connected) (targets stub.connected)
                    (trace stub.connected ++ calls))
    /\ Forall (fun e => onClient e = None) calls
    /\ calls
       = [CallGnmiBaseClientFactory;
          CallBaseSubscribe 0 None
            (mkQuery ["localhost:10161"] "" 0%Z None None (Some 4) false
               (Some (gpb.SubscribeRequest_Subscribe
                        (gpb.mkSubscriptionList (gpb.mkPath [] "" [] "") []
                           gpb.SubscriptionList_STREAM false))))
            "gnmi"]
    /\ r = None.
Proof.
  destruct (@Subscribe_dedicated_client stub.ok stub.connected 1%positive None
              (gpb.SubscribeRequest_Subscribe
                 (gpb.mkSubscriptionList (gpb.mkPath [] "" [] "") []
                    gpb.SubscriptionList_STREAM false))
              (Some 4)
              (mkTarget (createDestination stub.device1).1 (Some 7) None)
              eq_refl)
    as (r & calls & Hrun & Hpool & Hcalls & Hr).
  exists r, calls. split; [exact Hrun|]. split; [exact Hpool|].
  split; [exact Hcalls | exact Hr].
Defined.

(** ** The subscription request builder *)

Section Builder.

Context {E : Collaborators}.

Implicit Types (o : SubscribeOptions) (paths : list (list string)).

(** On ASCII input [ToUpper] is the byte-wise mapping of a-z to A-Z. *)
Lemma ToUpper_ASCII (s : string) :
  isASCII s = true -> ToUpper s = mapBytes upperByte s.
Proof. unfold ToUpper. by intros ->. Qed.

Lemma ToUpper_empty : ToUpper "" = "".
Proof. reflexivity. Qed.

(** The entry built for a parsed path. *)
Lemma subscriptionsOf_ok o streamMode paths (parsed : list gpb.Path) :
  Forall2 (fun p gp => ParseGNMIElements p = inl gp) paths parsed ->
  subscriptionsOf o streamMode paths
  = inl (map (fun gp =>
                gpb.mkSubscription (gpb.withOrigin gp (Origin o)) streamMode
                  (SampleInterval o) (HeartbeatInterval o)) parsed).
Proof.
  induction 1 as [|p gp paths parsed Hp _ IH]; simpl; [done|].
  by rewrite Hp, IH.
Qed.

Lemma subscriptionsOf_mode o streamMode paths subs :
  subscriptionsOf o streamMode paths = inl subs ->
  Forall (fun su => gpb.sub_Mode su = streamMode) subs.
Proof.
  revert subs. induction paths as [|p paths IH]; simpl; intros subs.
  - intros [= <-]. constructor.
  - destruct (ParseGNMIElements p); [|done].
    destruct (subscriptionsOf o streamMode paths); [|done].
    intros [= <-]. constructor; [done|]. by apply IH.
Qed.

Lemma subscriptionsOf_err o streamMode paths err :
  subscriptionsOf o streamMode paths = inr err ->
  exists p, p ∈ paths /\ ParseGNMIElements p = inr err.
Proof.
  induction paths as [|p paths IH]; simpl; [done|].
  destruct (ParseGNMIElements p) as [gp|e] eqn:Hp.
  - destruct (subscriptionsOf o streamMode paths); [done|].
    intros [= <-]. destruct IH as (p' & Hin & Hp'); [done|].
    exists p'. split; [by apply list_elem_of_further | done].
  - intros [= <-]. exists p. split; [apply list_elem_of_here | done].
Qed.

Local Ltac eqb_cases :=
  repeat match goal with
         | |- context [String.eqb ?a ?b] =>
             let H := fresh "Heq" in
             destruct (String.eqb a b) eqn:H;
             [apply String.eqb_eq in H | apply String.eqb_neq in H]
         end.

Local Ltac not_listed :=
  match goal with
  | Hn : ?m ∉ _, Hm : ?m = _ |- _ =>
      exfalso; apply Hn; rewrite Hm; apply list_elem_of_In; simpl; tauto
  end.

Local Ltac listed :=
  match goal with
  | Hin : ?m ∈ _ |- _ =>
      exfalso; unfold modeNames, streamModeNames in Hin;
      apply list_elem_of_In in Hin; simpl in Hin; intuition congruence
  end.

(** The loop builds one entry for each path. *)
Lemma subscriptionsOf_length o streamMode paths subs :
  subscriptionsOf o streamMode paths = inl subs ->
  length subs = length paths.
Proof.
  revert subs. induction paths as [|p paths IH]; simpl; intros subs.
  - by intros [= <-].
  - destruct (ParseGNMIElements p); [|done].
    destruct (subscriptionsOf o streamMode paths); [|done].
    intros [= <-]. simpl. f_equal. by apply IH.
Qed.

(** C6.  With [m] the upper-cased mode string and [s] the upper-cased
    stream-mode string: if [m] is none of ONCE, POLL, STREAM and the
    empty string, the build returns an error, and no request, whose
    message holds the mode string as given; if [m] is one of them and
    [s] is none of ON_CHANGE, SAMPLE, TARGET_DEFINED and the empty
    string, likewise with the stream-mode string.  When [m] and [s] are
    both accepted, the only errors left are those of the path parser, and
    when prefix and paths parse a request is returned.  Every request
    returned is a subscribe request with one subscription for each path;
    its list mode is the one named [m], STREAM for the empty string, and
    the mode of every subscription is the one named [s], TARGET_DEFINED
    for the empty string. *)
Theorem NewSubscribeRequest_modes o :
  let m := ToUpper (Mode o) in
  let s := ToUpper (StreamMode o) in
  (m ∉ modeNames ->
     NewSubscribeRequest o
     = inr (Errorf ("subscribe mode (" ++ Mode o ++ ") invalid"))
     /\ contains ("subscribe mode (" ++ Mode o ++ ") invalid") (Mode o))
  /\ (m ∈ modeNames -> s ∉ streamModeNames ->
        NewSubscribeRequest o
        = inr (Errorf ("subscribe stream mode (" ++ StreamMode o
                       ++ ") invalid"))
        /\ contains ("subscribe stream mode (" ++ StreamMode o
                     ++ ") invalid") (StreamMode o))
  /\ (forall request,
        NewSubscribeRequest o = inl request ->
        exists l,
          request = gpb.SubscribeRequest_Subscribe l
          /\ (m = gpb.SubscriptionList_Mode_String (gpb.sl_Mode l)
              \/ (m = "" /\ gpb.sl_Mode l = gpb.SubscriptionList_STREAM))
          /\ length (gpb.sl_Subscription l) = length (Paths o)
          /\ Forall (fun su =>
                       s = gpb.SubscriptionMode_String (gpb.sub_Mode su)
                       \/ (s = ""
                           /\ gpb.sub_Mode su
                              = gpb.SubscriptionMode_TARGET_DEFINED))
                    (gpb.sl_Subscription l))
  /\ (m ∈ modeNames -> s ∈ streamModeNames ->
      forall err,
        NewSubscribeRequest o = inr err ->
        ParseGNMIElements (SplitPath (Prefix o)) = inr err
        \/ exists p, p ∈ Paths o /\ ParseGNMIElements p = inr err)
  /\ (m ∈ modeNames -> s ∈ streamModeNames ->
      forall prefixPath (parsed : list gpb.Path),
        ParseGNMIElements (SplitPath (Prefix o)) = inl prefixPath ->
        Forall2 (fun p gp => ParseGNMIElements p = inl gp) (Paths o) parsed ->
        exists l,
          NewSubscribeRequest o = inl (gpb.SubscribeRequest_Subscribe l)
          /\ (m = gpb.SubscriptionList_Mode_String (gpb.sl_Mode l)
              \/ (m = "" /\ gpb.sl_Mode l = gpb.SubscriptionList_STREAM))
          /\ length (gpb.sl_Subscription l) = length (Paths o)
          /\ Forall (fun su =>
                       s = gpb.SubscriptionMode_String (gpb.sub_Mode su)
                       \/ (s = ""
                           /\ gpb.sub_Mode su
                              = gpb.SubscriptionMode_TARGET_DEFINED))
                    (gpb.sl_Subscription l)).
Proof.
  intros m s. subst m s. unfold NewSubscribeRequest.
  set (m := ToUpper (Mode o)). set (s := ToUpper (StreamMode o)).
  simpl gpb.SubscriptionList_Mode_String.
  simpl gpb.SubscriptionMode_String.
  split; [|split; [|split; [|split]]].
  - intros Hn. split; [|by exists "subscribe mode (", ") invalid"].
    unfold modeNames in Hn. eqb_cases; try not_listed. done.
  - intros Hin Hn.
    split; [|by exists "subscribe stream mode (", ") invalid"].
    unfold streamModeNames in Hn.
    eqb_cases; try not_listed; try done; listed.
  - intros request.
    eqb_cases; try done;
      (destruct (ParseGNMIElements (SplitPath (Prefix o))); [|done]);
      (destruct (subscriptionsOf o _ (Paths o)) as [subs|] eqn:Hsubs;
       [|done]);
      intros [= <-]; eexists; (split; [reflexivity|]); simpl;
      (split; [by auto|]);
      (split; [by eapply subscriptionsOf_length|]);
      apply subscriptionsOf_mode in Hsubs;
      (eapply Forall_impl; [exact Hsubs|]);
      intros su ->; simpl; by auto.
  - intros Hm Hs err.
    eqb_cases; try (clear Hs; listed); try (clear Hm; listed);
      (destruct (ParseGNMIElements (SplitPath (Prefix o)));
       [|intros [= <-]; by left]);
      (destruct (subscriptionsOf o _ (Paths o)) as [subs|e] eqn:Hsubs;
       [done|]);
      intros [= <-]; right; by eapply subscriptionsOf_err.
  - intros Hm Hs prefixPath parsed Hprefix Hpaths. rewrite Hprefix.
    pose proof (Forall2_length _ _ _ Hpaths) as Hlen.
    eqb_cases; try (clear Hs; listed); try (clear Hm; listed);
      rewrite (subscriptionsOf_ok _ _ _ _ Hpaths);
      eexists; (split; [reflexivity|]); simpl;
      (split; [by auto|]);
      (split; [by rewrite length_map|]);
      apply Forall_map, Forall_forall; intros gp _; simpl; by auto.
Qed.

(** C7.  When both mode strings are accepted, the prefix parses and
    every path parses, the build returns a request that holds the
    updates-only flag as given, the parsed prefix as the parser returned
    it, and one subscription for each input path, in the order of the
    input: the subscription for a path holds the parsed path with its
    origin set to the origin string of the options, the resolved stream
    mode, and the sample and heartbeat intervals as given. *)
Theorem NewSubscribeRequest_built o prefixPath (parsed : list gpb.Path) :
  ToUpper (Mode o) ∈ modeNames ->
  ToUpper (StreamMode o) ∈ streamModeNames ->
  ParseGNMIElements (SplitPath (Prefix o)) = inl prefixPath ->
  Forall2 (fun p gp => ParseGNMIElements p = inl gp) (Paths o) parsed ->
  exists mode streamMode,
    NewSubscribeRequest o
    = inl (gpb.SubscribeRequest_Subscribe
             (gpb.mkSubscriptionList prefixPath
                (map (fun gp =>
                        gpb.mkSubscription
                          (gpb.withOrigin gp (Origin o)) streamMode
                          (SampleInterval o) (HeartbeatInterval o))
                     parsed)
                mode (UpdatesOnly o)))
    /\ length parsed = length (Paths o)
    /\ (ToUpper (Mode o) = gpb.SubscriptionList_Mode_String mode
        \/ (ToUpper (Mode o) = ""
            /\ mode = gpb.SubscriptionList_STREAM))
    /\ (ToUpper (StreamMode o) = gpb.SubscriptionMode_String streamMode
        \/ (ToUpper (StreamMode o) = ""
            /\ streamMode = gpb.SubscriptionMode_TARGET_DEFINED)).
Proof.
  intros Hm Hs Hprefix Hpaths. unfold NewSubscribeRequest.
  rewrite Hprefix.
  pose proof (Forall2_length _ _ _ Hpaths) as Hlen.
  simpl gpb.SubscriptionList_Mode_String.
  simpl gpb.SubscriptionMode_String.
  eqb_cases; try listed;
    rewrite (subscriptionsOf_ok _ _ _ _ Hpaths);
    eexists _, _; (split; [reflexivity|]); (split; [done|]);
    split; simpl; auto.
Qed.

End Builder.

(** The builder at the test doubles. *)

Lemma NewSubscribeRequest_modes_witness :
  @NewSubscribeRequest stub.ok stub.badModeOptions
  = inr (Errorf "subscribe mode (bogus) invalid")
  /\ @NewSubscribeRequest stub.ok stub.badStreamModeOptions
     = inr (Errorf "subscribe stream mode (sometimes) invalid")
  /\ (exists l,
        @NewSubscribeRequest stub.ok stub.streamOptions
        = inl (gpb.SubscribeRequest_Subscribe l)
        /\ gpb.sl_Mode l = gpb.SubscriptionList_STREAM
        /\ length (gpb.sl_Subscription l) = 2
        /\ Forall (fun su =>
                     gpb.sub_Mode su = gpb.SubscriptionMode_TARGET_DEFINED)
                  (gpb.sl_Subscription l))
  /\ (forall request,
        @NewSubscribeRequest stub.ok stub.streamOptions = inl request ->
        exists l,
          request = gpb.SubscribeRequest_Subscribe l
          /\ gpb.sl_Mode l = gpb.SubscriptionList_STREAM)
  /\ (forall err,
        @NewSubscribeRequest stub.ok stub.streamOptions <> inr err).
Proof.
  destruct (@NewSubscribeRequest_modes stub.ok stub.streamOptions)
    as (_ & _ & Hinv & Herrs & Hbuilt).
  assert (Hm : @ToUpper stub.ok (Mode stub.streamOptions) ∈ modeNames)
    by (apply list_elem_of_In; vm_compute; tauto).
  assert (Hs : @ToUpper stub.ok (StreamMode stub.streamOptions)
               ∈ streamModeNames)
    by (apply list_elem_of_In; vm_compute; tauto).
  split; [|split; [|split; [|split]]].
  - apply (proj1 (@NewSubscribeRequest_modes stub.ok stub.badModeOptions)).
    rewrite list_elem_of_In. vm_compute. intuition discriminate.
  - apply (proj1 (proj2 (@NewSubscribeRequest_modes stub.ok
                           stub.badStreamModeOptions))).
    + apply list_elem_of_In. vm_compute. tauto.
    + rewrite list_elem_of_In. vm_compute. intuition discriminate.
  - destruct (Hbuilt Hm Hs (gpb.mkPath [] "" [] "")
                [gpb.mkPath ["a"; "b"; "c"] ""
                   [gpb.mkPathElem "a" []; gpb.mkPathElem "b" [];
                    gpb.mkPathElem "c" []] "";
                 gpb.mkPath ["d"] "" [gpb.mkPathElem "d" []] ""])
      as (l & Hreq & Hmode & Hlen & Hsubs);
      [reflexivity | repeat constructor |].
    exists l. split; [exact Hreq|]. split; [|split; [exact Hlen|]].
    + destruct Hmode as [Hmode | [_ Hmode]]; [|exact Hmode].
      by destruct (gpb.sl_Mode l).
    + eapply Forall_impl; [exact Hsubs|]. intros su [Hsu | [_ Hsu]].
      * by destruct (gpb.sub_Mode su).
      * exact Hsu.
  - intros request Hreq.
    destruct (Hinv request Hreq) as (l & -> & Hmode & _).
    exists l. split; [reflexivity|].
    destruct Hmode as [Hmode | [_ Hmode]]; [|exact Hmode].
    by destruct (gpb.sl_Mode l).
  - intros err Herr.
    destruct (Herrs Hm Hs err Herr) as [Hp | (p & _ & Hp)];
      discriminate Hp.
Defined.

Lemma NewSubscribeRequest_built_witness :
  exists mode streamMode,
    @NewSubscribeRequest stub.ok stub.streamOptions
    = inl (gpb.SubscribeRequest_Subscribe
             (gpb.mkSubscriptionList (gpb.mkPath [] "" [] "")
                [gpb.mkSubscription
                   (gpb.mkPath ["a"; "b"; "c"] "openconfig"
                      [gpb.mkPathElem "a" []; gpb.mkPathElem "b" [];
                       gpb.mkPathElem "c" []] "")
                   streamMode 15 15;
                 gpb.mkSubscription
                   (gpb.mkPath ["d"] "openconfig" [gpb.mkPathElem "d" []] "")
                   streamMode 15 15]
                mode false))
    /\ mode = gpb.SubscriptionList_STREAM
    /\ streamMode = gpb.SubscriptionMode_TARGET_DEFINED.
Proof.
  destruct (@NewSubscribeRequest_built stub.ok stub.streamOptions
              (gpb.mkPath [] "" [] "")
              [gpb.mkPath ["a"; "b"; "c"] ""
                 [gpb.mkPathElem "a" []; gpb.mkPathElem "b" [];
                  gpb.mkPathElem "c" []] "";
               gpb.mkPath ["d"] "" [gpb.mkPathElem "d" []] ""])
    as (mode & streamMode & Hreq & _ & Hm & Hs).
  - apply list_elem_of_In. vm_compute. tauto.
  - apply list_elem_of_In. vm_compute. tauto.
  - reflexivity.
  - repeat constructor.
  - exists mode, streamMode. split; [exact Hreq|]. split.
    + destruct Hm as [Hm | [_ Hm]]; [|exact Hm]. by destruct mode.
    + destruct Hs as [Hs | [_ Hs]]; [|exact Hs]. by destruct streamMode.
Defined.


(** * Further properties *)

(** ** The resolver, on every device *)

Section ResolverMore.

Implicit Types device : topodevice.Device.

Local Ltac empties :=
  repeat match goal with
         | |- context [String.eqb ?a ""] =>
             let H := fresh "Hs" in
             destruct (String.eqb a "") eqn:H;
             [apply String.eqb_eq in H | apply String.eqb_neq in H]
         end.

(** Whatever the device, the destination has the device's address as its
    only address, the device's target name, and the device's timeout,
    zero when the device has none. *)
Lemma createDestination_address device :
  client.Addrs (createDestination device).1 = [topodevice.Address device]
  /\ client.Target (createDestination device).1 = topodevice.Target device
  /\ client.Timeout (createDestination device).1
     = default 0%Z (topodevice.Timeout device).
Proof.
  unfold createDestination.
  destruct (topodevice.Plain _); [by destruct (topodevice.Timeout device)|].
  empties; simpl; by destruct (topodevice.Timeout device).
Qed.

(** X1.  A plaintext device gets neither a TLS configuration nor
    credentials, whatever its certificate paths, CA path, insecure flag
    and credentials say. *)
Theorem createDestination_plaintext device :
  topodevice.Plain (topodevice.TLS device) = true ->
  (createDestination device).1
  = client.mkDestination [topodevice.Address device]
      (topodevice.Target device)
      (default 0%Z (topodevice.Timeout device)) None None.
Proof.
  unfold createDestination. intros ->. simpl.
  by destruct (topodevice.Timeout device).
Qed.

Lemma createDestination_plaintext_witness :
  (createDestination
     (topodevice.mkDevice "d" "10.0.0.1:9339" "t" "2.1" (Some 7%Z)
        (topodevice.mkCredentials "User" "Password")
        (topodevice.mkTLS "ca.crt" "c.crt" "c.key" true true))).1
  = client.mkDestination ["10.0.0.1:9339"] "t" 7%Z None None.
Proof.
  apply (createDestination_plaintext
           (topodevice.mkDevice "d" "10.0.0.1:9339" "t" "2.1" (Some 7%Z)
              (topodevice.mkCredentials "User" "Password")
              (topodevice.mkTLS "ca.crt" "c.crt" "c.key" true true))).
  reflexivity.
Defined.

(** X2.  A secure device always gets a TLS configuration.  Certificate
    verification is skipped exactly when the device asks for it or the
    device has one certificate path without both credentials; the
    configuration has no root CA pool exactly in the second case, and
    otherwise the pool is the embedded one for an empty CA path and the
    pool read from the CA file else. *)
Theorem createDestination_verification device :
  topodevice.Plain (topodevice.TLS device) = false ->
  exists cfg,
    client.TLS (createDestination device).1 = Some cfg
    /\ (tls.InsecureSkipVerify cfg = true <->
        topodevice.Insecure (topodevice.TLS device) = true
        \/ (onePath device /\ ~ bothCredentials device))
    /\ (tls.RootCAs cfg = None <->
        onePath device /\ ~ bothCredentials device)
    /\ (forall pool, tls.RootCAs cfg = Some pool ->
          pool = if String.eqb (topodevice.CaCert (topodevice.TLS device)) ""
                 then tls.CertPoolOf [tls.OnfCaCrt]
                 else tls.CertPoolOf
                        [tls.FileContents
                           (topodevice.CaCert (topodevice.TLS device))]).
Proof.
  intros Hplain.
  unfold createDestination, onePath, bothCredentials, getCertPoolDefault,
    getCertPool.
  rewrite Hplain.
  destruct (topodevice.Insecure _);
    destruct (String.eqb (topodevice.CaCert _) "");
    empties; simpl; eexists; (split; [reflexivity|]); simpl;
    repeat split; intros; try congruence; try tauto;
    try (exfalso; intuition congruence).
Qed.

Lemma createDestination_verification_witness :
  exists cfg,
    client.TLS (createDestination stub.certPathOnly).1 = Some cfg
    /\ tls.InsecureSkipVerify cfg = true
    /\ tls.RootCAs cfg = None.
Proof.
  destruct (createDestination_verification stub.certPathOnly eq_refl)
    as (cfg & Hcfg & Hskip & Hca & _).
  exists cfg. split; [exact Hcfg|].
  assert (Hfallback : onePath stub.certPathOnly
                      /\ ~ bothCredentials stub.certPathOnly).
  { split.
    - right. split; [discriminate | reflexivity].
    - intros [Hu _]. by apply Hu. }
  split; [apply Hskip; by right | by apply Hca].
Defined.

(** X3.  Credentials are attached exactly to a secure device with one
    certificate path and both credentials, and then they are the
    device's; a destination never carries both credentials and a client
    certificate. *)
Theorem createDestination_credentials device :
  (client.Credentials (createDestination device).1 <> None <->
   topodevice.Plain (topodevice.TLS device) = false
   /\ onePath device /\ bothCredentials device)
  /\ (forall cred,
        client.Credentials (createDestination device).1 = Some cred ->
        cred = client.mkCredentials
                 (topodevice.User (topodevice.Credentials device))
                 (topodevice.Password (topodevice.Credentials device))
        /\ forall cfg,
             client.TLS (createDestination device).1 = Some cfg ->
             tls.Certificates cfg = []).
Proof.
  unfold createDestination, onePath, bothCredentials.
  destruct (topodevice.Plain _).
  - simpl. split; [|done]. split; [done|]. by intros [? _].
  - destruct (topodevice.Insecure _);
      destruct (String.eqb (topodevice.CaCert _) "");
      empties; simpl;
      (split;
       [split; [intros Hc; try (by exfalso); intuition congruence
               | intros (_ & Hp & Hb) Hc; try discriminate Hc;
                 intuition congruence]
       | intros cred Hc;
         first [discriminate Hc
               | injection Hc as <-; split; [done|]; by intros cfg [= <-]]]).
Qed.

Lemma createDestination_credentials_witness :
  client.Credentials (createDestination stub.certPathUserPassword).1
  = Some (client.mkCredentials "User" "Password")
  /\ client.Credentials (createDestination stub.userPasswordOnly).1 = None.
Proof.
  split; [reflexivity|].
  destruct (client.Credentials (createDestination stub.userPasswordOnly).1)
    as [cred|] eqn:Hc; [|reflexivity].
  exfalso.
  destruct (proj1 (proj1 (createDestination_credentials
                            stub.userPasswordOnly)))
    as (_ & [[_ Hk] | [Hk _]] & _).
  - rewrite Hc. discriminate.
  - by apply Hk.
  - by apply Hk.
Defined.

(** X4.  The client certificate list of a secure device is empty or a
    single keypair: the embedded default keypair exactly when both paths
    are empty, the keypair loaded from the two paths exactly when both
    are given, and no certificate when exactly one is given. *)
Theorem createDestination_certificates device cfg :
  client.TLS (createDestination device).1 = Some cfg ->
  let t := topodevice.TLS device in
  (topodevice.Cert t = "" /\ topodevice.Key t = ""
   /\ tls.Certificates cfg
      = [tls.X509KeyPair tls.DefaultClientCrt tls.DefaultClientKey])
  \/ (topodevice.Cert t <> "" /\ topodevice.Key t <> ""
      /\ tls.Certificates cfg
         = [tls.LoadX509KeyPair (topodevice.Cert t) (topodevice.Key t)])
  \/ (onePath device /\ tls.Certificates cfg = []).
Proof.
  unfold createDestination, onePath.
  destruct (topodevice.Plain _); [done|].
  destruct (topodevice.Insecure _);
    destruct (String.eqb (topodevice.CaCert _) "");
    empties; simpl; intros [= <-]; simpl; tauto.
Qed.

Lemma createDestination_certificates_witness :
  exists cfg,
    client.TLS (createDestination stub.withCert).1 = Some cfg
    /\ tls.Certificates cfg
       = [tls.LoadX509KeyPair "testdata/client1.crt" "testdata/client1.key"].
Proof.
  eexists. split; [reflexivity|].
  destruct (createDestination_certificates stub.withCert _ eq_refl)
    as [(Hc & _) | [(_ & _ & Hl) | ([[Hc _] | [_ Hk]] & _)]].
  - discriminate Hc.
  - exact Hl.
  - discriminate Hc.
  - discriminate Hk.
Defined.

End ResolverMore.

(** ** The registry, composed *)

Section RegistryMore.

Context {E : Collaborators}.

Implicit Types (w : World) (target : loc) (key : string).

(** X5.  After [NewTargetItem] a lookup of the key returns the target
    just stored, replacing any earlier entry; the other keys, the targets
    themselves and the trace are as before. *)
Theorem NewTargetItem_then_GetTarget w key target :
  exists w',
    NewTargetItem key target w = Returned tt w'
    /\ GetTarget key w' = Returned (inl target) w'
    /\ heap w' = heap w
    /\ trace w' = trace w
    /\ forall k', k' <> key -> targets w' !! k' = targets w !! k'.
Proof.
  eexists. split; [reflexivity|]. split.
  - apply GetTarget_hit. simpl. apply lookup_insert_eq.
  - repeat split. intros k' Hne. simpl. by apply lookup_insert_ne.
Qed.

(** X6.  A successful [ConnectTarget] followed by a lookup of the key it
    returned gives back the receiver, which now holds the destination
    resolved from the device, the client the factory returned and the
    context of the call. *)
Theorem ConnectTarget_then_GetTarget w target cx device t c :
  heap w !! target = Some t ->
  GnmiClientFactory (trace w) cx (createDestination device).1 = inl c ->
  exists key w',
    ConnectTarget target cx device w = Returned (key, None) w'
    /\ key = NewVersionedID (topodevice.ID device) (topodevice.Version device)
    /\ GetTarget key w' = Returned (inl target) w'
    /\ heap w' !! target
       = Some (mkTarget (createDestination device).1 (Some c) cx).
Proof.
  intros Ht Hc. eexists _, _.
  split; [by apply (ConnectTarget_ok _ _ _ _ _ _ Ht Hc)|].
  split; [reflexivity|]. split.
  - apply GetTarget_hit. simpl. apply lookup_insert_eq.
  - simpl. apply lookup_insert_eq.
Qed.

(** X7.  Whatever [ConnectTarget] does, every target other than the
    receiver and every registry entry other than the device's key are as
    before, the calls already in the trace stay, and a panic leaves
    targets and registry untouched. *)
Theorem ConnectTarget_frame w target cx device :
  match ConnectTarget target cx device w with
  | Returned _ w' =>
      (forall l, l <> target -> heap w' !! l = heap w !! l)
      /\ (forall k, k <> (createDestination device).2 ->
            targets w' !! k = targets w !! k)
      /\ exists calls, trace w' = (trace w ++ calls)%list
  | Panicked w' =>
      heap w' = heap w /\ targets w' = targets w
      /\ exists calls, trace w' = (trace w ++ calls)%list
  end.
Proof.
  unfold ConnectTarget.
  destruct (createDestination device) as [dst key] eqn:Hd. simpl.
  unfold invoke, deref, store, NewTargetItem, mbind, M_bind, mret, M_ret.
  simpl. destruct (GnmiClientFactory _ _ _) as [c|err]; simpl.
  - destruct (heap w !! target) as [t|] eqn:Ht; simpl; [|by eauto].
    destruct (clt t) as [old|]; simpl;
      (split; [intros l Hl; by apply lookup_insert_ne|]);
      (split; [intros k Hk; by apply lookup_insert_ne|]).
    + eexists. by rewrite <- app_assoc.
    + by eauto.
  - by eauto.
Qed.

(** X8.  [ConnectTarget] on a receiver that addresses no target dials
    first and then panics: the factory has been called, the client it
    returned is neither stored nor closed, and the registry has no new
    entry. *)
Theorem ConnectTarget_missing_receiver w target cx device c :
  heap w !! target = None ->
  GnmiClientFactory (trace w) cx (createDestination device).1 = inl c ->
  ConnectTarget target cx device w
  = Panicked (mkWorld (heap w) (targets w)
                (trace w
                 ++ [CallGnmiClientFactory cx (createDestination device).1])).
Proof.
  intros Ht Hc. unfold ConnectTarget.
  destruct (createDestination device) as [dst key] eqn:Hd. simpl in *.
  unfold invoke, deref, mbind, M_bind. simpl. rewrite Hc. simpl.
  by rewrite Ht.
Qed.

(** X9.  When [ConnectTarget] succeeds twice on one target, for two
    devices, both keys are registered to that same target: a lookup of
    the first key returns a session that now holds the destination and
    client of the second device. *)
Theorem ConnectTarget_two_devices_one_target
    w w1 w2 target cx1 cx2 device1 device2 key1 key2 :
  ConnectTarget target cx1 device1 w = Returned (key1, None) w1 ->
  ConnectTarget target cx2 device2 w1 = Returned (key2, None) w2 ->
  exists c2 : GnmiClient,
    GnmiClientFactory (trace w1) cx2 (createDestination device2).1 = inl c2
    /\ GetTarget key1 w2 = Returned (inl target) w2
    /\ GetTarget key2 w2 = Returned (inl target) w2
    /\ heap w2 !! target
       = Some (mkTarget (createDestination device2).1 (Some c2) cx2).
Proof.
  intros H1 H2.
  destruct (ConnectTarget_inv _ _ _ _ _ _ H1) as (t0 & c1 & Ht0 & Hc1 & Hk1).
  destruct (ConnectTarget_inv _ _ _ _ _ _ H2) as (t1 & c2 & Ht1 & Hc2 & Hk2).
  rewrite (ConnectTarget_ok _ _ _ _ _ _ Ht0 Hc1) in H1.
  rewrite (ConnectTarget_ok _ _ _ _ _ _ Ht1 Hc2) in H2.
  injection H1 as _ <-. injection H2 as _ <-.
  exists c2. split; [exact Hc2|]. split; [|split].
  - apply GetTarget_hit. cbn [targets]. rewrite Hk1.
    rewrite lookup_insert. case_decide; [done|]. apply lookup_insert_eq.
  - apply GetTarget_hit. cbn [targets]. rewrite Hk2. apply lookup_insert_eq.
  - cbn [heap]. apply lookup_insert_eq.
Qed.

End RegistryMore.

(** X10.  The outcome of [ConnectTarget] depends on the collaborators only
    through the client factory: with the same factory, clients whose
    [Close] fails give the same result, targets, registry and trace as
    clients whose [Close] succeeds. *)
Theorem ConnectTarget_ignores_close_result
    (E1 E2 : Collaborators) w target cx device :
  (forall h c d,
     @GnmiClientFactory E1 h c d = @GnmiClientFactory E2 h c d) ->
  @ConnectTarget E1 target cx device w = @ConnectTarget E2 target cx device w.
Proof.
  intros Hf. unfold ConnectTarget.
  destruct (createDestination device) as [dst key].
  unfold invoke, deref, store, NewTargetItem, mbind, M_bind, mret, M_ret.
  simpl. rewrite Hf.
  destruct (GnmiClientFactory _ _ _); [|done]. simpl.
  destruct (heap w !! target) as [t|]; [|done].
  by destruct (clt t).
Qed.

(** The registry properties at the test doubles. *)

Lemma NewTargetItem_then_GetTarget_witness :
  exists w',
    NewTargetItem "localhost-1:1.0.0" 2%positive stub.connected
    = Returned tt w'
    /\ GetTarget "localhost-1:1.0.0" w' = Returned (inl 2%positive) w'
    /\ targets w' !! "other" = targets stub.connected !! "other".
Proof.
  destruct (NewTargetItem_then_GetTarget stub.connected "localhost-1:1.0.0"
              2%positive) as (w' & Hrun & Hget & _ & _ & Hother).
  exists w'. split; [exact Hrun|]. split; [exact Hget|].
  apply Hother. discriminate.
Defined.

Lemma ConnectTarget_then_GetTarget_witness :
  exists key w',
    @ConnectTarget stub.ok 2%positive (Some 9) fixtures.device2
      stub.twoTargets
    = Returned (key, None) w'
    /\ key = "localhost-2:1.0.0"
    /\ GetTarget key w' = Returned (inl 2%positive) w'
    /\ heap w' !! 2%positive
       = Some (mkTarget
                 (client.mkDestination ["localhost:10162"] "" 5%Z None None)
                 (Some 0) (Some 9)).
Proof.
  apply (@ConnectTarget_then_GetTarget stub.ok stub.twoTargets 2%positive
           (Some 9) fixtures.device2 zeroTarget 0); reflexivity.
Defined.

Lemma ConnectTarget_ignores_close_result_witness :
  @ConnectTarget stub.ok 1%positive None fixtures.device2 stub.connected
  = @ConnectTarget fixtures.closeFails 1%positive None fixtures.device2
      stub.connected.
Proof.
  apply (ConnectTarget_ignores_close_result stub.ok fixtures.closeFails).
  reflexivity.
Defined.

Lemma ConnectTarget_missing_receiver_witness :
  @ConnectTarget stub.ok 3%positive None stub.device1 stub.twoTargets
  = Panicked (mkWorld (heap stub.twoTargets) (targets stub.twoTargets)
                [CallGnmiClientFactory None (createDestination stub.device1).1]).
Proof.
  apply (@ConnectTarget_missing_receiver stub.ok stub.twoTargets 3%positive
           None stub.device1 0); reflexivity.
Defined.

Lemma ConnectTarget_two_devices_one_target_witness :
  exists w1 w2 : World,
    @ConnectTarget stub.ok 1%positive None stub.device1 stub.twoTargets
    = Returned ("localhost-1:1.0.0", None) w1
    /\ @ConnectTarget stub.ok 1%positive None fixtures.device2 w1
       = Returned ("localhost-2:1.0.0", None) w2
    /\ GetTarget "localhost-1:1.0.0" w2 = Returned (inl 1%positive) w2
    /\ heap w2 !! 1%positive
       = Some (mkTarget (createDestination fixtures.device2).1 (Some 1) None).
Proof.
  pose proof (@ConnectTarget_ok stub.ok stub.twoTargets 1%positive None
                stub.device1 zeroTarget 0 eq_refl eq_refl) as H1.
  match type of H1 with _ = Returned _ ?v => set (w1 := v) in H1 end.
  pose proof (@ConnectTarget_ok stub.ok w1 1%positive None
                fixtures.device2
                (mkTarget (createDestination stub.device1).1 (Some 0) None)
                1 eq_refl eq_refl) as H2.
  match type of H2 with _ = Returned _ ?v => set (w2 := v) in H2 end.
  exists w1, w2.
  destruct (@ConnectTarget_two_devices_one_target stub.ok stub.twoTargets
              w1 w2 1%positive None None stub.device1 fixtures.device2
              "localhost-1:1.0.0" "localhost-2:1.0.0" H1 H2)
    as (c2 & Hc2 & Hg1 & _ & Hheap).
  injection Hc2 as <-.
  split; [exact H1|]. split; [exact H2|]. split; [exact Hg1 | exact Hheap].
Defined.

Lemma ConnectTarget_frame_witness :
  match @ConnectTarget stub.ok 1%positive None fixtures.device2
          stub.twoTargets with
  | Returned _ w' =>
      heap w' !! 2%positive = heap stub.twoTargets !! 2%positive
      /\ targets w' !! "localhost-1:1.0.0"
         = targets stub.twoTargets !! "localhost-1:1.0.0"
  | Panicked _ => False
  end.
Proof.
  pose proof (@ConnectTarget_frame stub.ok stub.twoTargets 1%positive None
                fixtures.device2) as H.
  destruct (@ConnectTarget stub.ok 1%positive None fixtures.device2
              stub.twoTargets) as [r w'|w'] eqn:Hrun.
  - destruct H as (Hheap & Hreg & _). split.
    + apply Hheap. discriminate.
    + apply Hreg. discriminate.
  - discriminate Hrun.
Defined.

(** ** Target sessions, composed *)

Section SessionsMore.

Context {E : Collaborators}.

Implicit Types (w : World) (target : loc) (cx : Context).

Local Ltac run :=
  unfold Subscribe, CapabilitiesWithString, GetWithString, SetWithString,
    Capabilities, Get, Set_, Close, Client, Destination, TargetContext,
    store, deref, invoke, panic, mbind, M_bind, mret, M_ret;
  simpl.

(** X11.  On a session that holds a client, [Capabilities], [Get] and
    [Set] each make exactly one call, on that client and with the context
    and request as given, and leave targets and registry as they were.  A
    response is returned as the client gave it; an error of the client
    comes back as an untyped error whose message holds the quoted text of
    the request and the message of the cause. *)
Theorem unary_calls_on_held_client w target cx t c :
  heap w !! target = Some t ->
  clt t = Some c ->
  (forall request,
     Capabilities target cx request w
     = Returned
         match clt_Capabilities (trace w) c cx request with
         | inl response => inl response
         | inr err =>
             inr (Errorf ("target returned RPC error for Capabilities("
                          ++ Quote (gpb.CapabilityRequest_String request)
                          ++ "): " ++ Error err))
         end
         (mkWorld (heap w) (targets w)
            (trace w ++ [CallCapabilities c cx request])))
  /\ (forall request,
        Get target cx request w
        = Returned
            match clt_Get (trace w) c cx request with
            | inl response => inl response
            | inr err =>
                inr (Errorf ("target returned RPC error for Get("
                             ++ Quote (gpb.GetRequest_String request)
                             ++ ") : " ++ Error err))
            end
            (mkWorld (heap w) (targets w)
            (trace w ++ [CallGet c cx request])))
  /\ (forall request,
        Set_ target cx request w
        = Returned
            match clt_Set (trace w) c cx request with
            | inl response => inl response
            | inr err =>
                inr (Errorf ("target returned RPC error for Set("
                             ++ Quote (gpb.SetRequest_String request)
                             ++ ") : " ++ Error err))
            end
            (mkWorld (heap w) (targets w)
            (trace w ++ [CallSet c cx request]))).
Proof.
  intros Ht Hc. split; [|split]; intros request; run; rewrite Ht, Hc; simpl.
  - by destruct (clt_Capabilities _ _ _ _).
  - by destruct (clt_Get _ _ _ _).
  - by destruct (clt_Set _ _ _ _).
Qed.

(** X12.  On a session whose client is nil, [Capabilities], [Get] and
    [Set] panic before any call is made, and so do the string forms once
    the string has been parsed. *)
Theorem unary_calls_without_client w target cx t :
  heap w !! target = Some t ->
  clt t = None ->
  (forall request, Capabilities target cx request w = Panicked w)
  /\ (forall request, Get target cx request w = Panicked w)
  /\ (forall request, Set_ target cx request w = Panicked w)
  /\ (forall s r, UnmarshalText_CapabilityRequest s = inl r ->
        CapabilitiesWithString target cx s w = Panicked w)
  /\ (forall s r, s <> "" -> UnmarshalText_GetRequest s = inl r ->
        GetWithString target cx s w = Panicked w)
  /\ (forall s r, s <> "" -> UnmarshalText_SetRequest s = inl r ->
        SetWithString target cx s w = Panicked w).
Proof.
  intros Ht Hc.
  assert (Hcap : forall request, Capabilities target cx request w = Panicked w)
    by (intros; run; by rewrite Ht, Hc).
  assert (Hget : forall request, Get target cx request w = Panicked w)
    by (intros; run; by rewrite Ht, Hc).
  assert (Hset : forall request, Set_ target cx request w = Panicked w)
    by (intros; run; by rewrite Ht, Hc).
  repeat split; try done.
  - intros s r Hp. unfold CapabilitiesWithString. by rewrite Hp.
  - intros s r Hs Hp. unfold GetWithString.
    by rewrite (eqb_empty_false _ Hs), Hp.
  - intros s r Hs Hp. unfold SetWithString.
    by rewrite (eqb_empty_false _ Hs), Hp.
Qed.

(** X13.  A string the text parser rejects never reaches a session: each
    string form returns an untyped error whose message holds the quoted
    string and the parser's message, makes no call and changes nothing,
    even on a session without client or on a receiver that addresses no
    target. *)
Theorem WithString_parse_failure w target cx s err :
  (UnmarshalText_CapabilityRequest s = inr err ->
     CapabilitiesWithString target cx s w
     = Returned (inr (Errorf ("unable to parse gnmi.CapabilityRequest from "
                              ++ Quote s ++ " : " ++ Error err))) w)
  /\ (s <> "" -> UnmarshalText_GetRequest s = inr err ->
        GetWithString target cx s w
        = Returned (inr (Errorf ("unable to parse gnmi.GetRequest from "
                                 ++ Quote s ++ " : " ++ Error err))) w)
  /\ (s <> "" -> UnmarshalText_SetRequest s = inr err ->
        SetWithString target cx s w
        = Returned (inr (Errorf ("unable to parse gnmi.SetRequest from "
                                 ++ Quote s ++ " : " ++ Error err))) w).
Proof.
  split; [|split].
  - intros Hp. unfold CapabilitiesWithString. by rewrite Hp.
  - intros Hs Hp. unfold GetWithString. by rewrite (eqb_empty_false _ Hs), Hp.
  - intros Hs Hp. unfold SetWithString. by rewrite (eqb_empty_false _ Hs), Hp.
Qed.

(** X14.  [Subscribe] checks the request before it reads the session: a
    request [NewQuery] rejects returns that error as it is, unwrapped,
    with no call, on any receiver; a request it accepts, on a receiver
    that addresses no target, panics before the base client factory is
    called. *)
Theorem Subscribe_before_dial w target cx request handler :
  (forall err, NewQuery request = inr err ->
     Subscribe target cx request handler w = Returned (Some err) w)
  /\ (forall q, NewQuery request = inl q -> heap w !! target = None ->
        Subscribe target cx request handler w = Panicked w).
Proof.
  split.
  - intros err Hq. run. by rewrite Hq.
  - intros q Hq Ht. run. rewrite Hq. simpl. by rewrite Ht.
Qed.

(** The calls of [Subscribe] on an existing session, for a request
    [NewQuery] accepts. *)
Lemma Subscribe_dedicated_session_calls
    w target cx request handler t q :
  heap w !! target = Some t ->
  NewQuery request = inl q ->
  exists r,
    Subscribe target cx request handler w
    = Returned r
        (mkWorld (heap w) (targets w)
           (trace w
            ++ [CallGnmiBaseClientFactory;
                CallBaseSubscribe (GnmiBaseClientFactory (trace w)) cx
                  (mkQuery (client.Addrs (dest t)) (client.Target (dest t))
                     (client.Timeout (dest t)) (client.Credentials (dest t))
                     (client.TLS (dest t)) handler
                     (Q_UpdatesOnly q) (Q_SubReq q))
                  "gnmi"])).
Proof.
  intros Ht Hq. run. rewrite Hq. simpl. repeat (rewrite Ht; simpl).
  rewrite <- app_assoc. simpl.
  destruct (base_Subscribe _ _ _ _ _); eauto.
Qed.

(** X15.  A subscription made after a successful connect makes exactly
    two calls: one on the base client factory, and [Subscribe] on the
    client that call returned.  The query carries the destination
    resolved from the device: the address, target name and timeout of
    the device and the TLS configuration and credentials the resolver
    chose, with the caller's handler.  The session still holds the
    client of the connect, on which no call is made. *)
Theorem ConnectTarget_then_Subscribe
    w target cx cx' device request handler t c q :
  heap w !! target = Some t ->
  GnmiClientFactory (trace w) cx (createDestination device).1 = inl c ->
  NewQuery request = inl q ->
  exists key w1 r w2,
    ConnectTarget target cx device w = Returned (key, None) w1
    /\ Subscribe target cx' request handler w1 = Returned r w2
    /\ trace w2
       = (trace w1
          ++ [CallGnmiBaseClientFactory;
              CallBaseSubscribe (GnmiBaseClientFactory (trace w1)) cx'
                (mkQuery [topodevice.Address device]
                   (topodevice.Target device)
                   (default 0%Z (topodevice.Timeout device))
                   (client.Credentials (createDestination device).1)
                   (client.TLS (createDestination device).1)
                   handler (Q_UpdatesOnly q) (Q_SubReq q))
                "gnmi"])%list
    /\ heap w2 !! target
       = Some (mkTarget (createDestination device).1 (Some c) cx)
    /\ targets w2 = targets w1.
Proof.
  intros Ht Hc Hq.
  pose proof (ConnectTarget_ok _ _ _ _ _ _ Ht Hc) as H1.
  match type of H1 with _ = Returned _ ?v => set (w1 := v) in H1 end.
  assert (Ht1 : heap w1 !! target
                = Some (mkTarget (createDestination device).1 (Some c) cx))
    by apply lookup_insert_eq.
  destruct (Subscribe_dedicated_session_calls w1 target cx' request handler
              _ q Ht1 Hq) as (r & Hrun).
  destruct (createDestination_address device) as (Ha & Hn & Hto).
  eexists _, w1, r, _. split; [exact H1|]. split; [exact Hrun|].
  split; [|split; [exact Ht1 | reflexivity]].
  cbn [trace dest]. by rewrite Ha, Hn, Hto.
Qed.

(** X16.  [Close] neither forgets the client nor unregisters the session:
    after it the session still holds the closed client and a lookup of
    its key still returns it, and a second [Close] calls [Close] on the
    same client again. *)
Theorem Close_keeps_session w target key t c :
  heap w !! target = Some t ->
  clt t = Some c ->
  targets w !! key = Some target ->
  exists r1 w1 r2 w2,
    Close target w = Returned r1 w1
    /\ heap w1 !! target = Some t
    /\ GetTarget key w1 = Returned (inl target) w1
    /\ Close target w1 = Returned r2 w2
    /\ trace w2 = (trace w ++ [CallClose c; CallClose c])%list.
Proof.
  intros Ht Hc Hk. eexists _, _, _, _.
  split; [run; by rewrite Ht, Hc|].
  split; [exact Ht|]. split; [by apply GetTarget_hit|].
  split; [run; by rewrite Ht, Hc|].
  simpl. by rewrite <- app_assoc.
Qed.

End SessionsMore.

(** The session properties at the test doubles. *)

Lemma unary_calls_on_held_client_witness :
  @Get stub.ok 1%positive (Some 2) (gpb.mkGetRequest "path: <>") stub.connected
  = Returned (inl (gpb.mkGetResponse "path: <>"))
      (mkWorld (heap stub.connected) (targets stub.connected)
         (trace stub.connected
          ++ [CallGet 7 (Some 2) (gpb.mkGetRequest "path: <>")]))
  /\ @Set_ fixtures.closeFails 1%positive (Some 2)
       (gpb.mkSetRequest "delete: <>") stub.connected
     = Returned
         (inr (Errorf ("target returned RPC error for Set("
                       ++ stub.quote "delete: <>" ++ ") : unavailable")))
         (mkWorld (heap stub.connected) (targets stub.connected)
            (trace stub.connected
             ++ [CallSet 7 (Some 2) (gpb.mkSetRequest "delete: <>")])).
Proof.
  split.
  - apply (proj1 (proj2 (@unary_calls_on_held_client stub.ok stub.connected
                           1%positive (Some 2)
                           (mkTarget (createDestination stub.device1).1
                              (Some 7) None)
                           7 eq_refl eq_refl))).
  - apply (proj2 (proj2 (@unary_calls_on_held_client fixtures.closeFails
                           stub.connected 1%positive (Some 2)
                           (mkTarget (createDestination stub.device1).1
                              (Some 7) None)
                           7 eq_refl eq_refl))).
Defined.

Lemma unary_calls_without_client_witness :
  @Get stub.ok 1%positive None (gpb.mkGetRequest "path: <>") stub.twoTargets
  = Panicked stub.twoTargets
  /\ @SetWithString stub.ok 1%positive None "delete: <>" stub.twoTargets
     = Panicked stub.twoTargets.
Proof.
  destruct (@unary_calls_without_client stub.ok stub.twoTargets 1%positive
              None zeroTarget eq_refl eq_refl)
    as (_ & Hget & _ & _ & _ & Hset).
  split; [apply Hget|].
  apply (Hset "delete: <>" (gpb.mkSetRequest "delete: <>"));
    [discriminate | reflexivity].
Defined.

Lemma WithString_parse_failure_witness :
  @GetWithString fixtures.closeFails 9%positive None "!!!path" stub.twoTargets
  = Returned
      (inr (Errorf ("unable to parse gnmi.GetRequest from "
                    ++ stub.quote "!!!path" ++ " : unknown field")))
      stub.twoTargets.
Proof.
  apply (proj1 (proj2 (@WithString_parse_failure fixtures.closeFails
                         stub.twoTargets 9%positive None "!!!path"
                         (Errorf "unknown field"))));
    [discriminate | reflexivity].
Defined.

Lemma Subscribe_before_dial_witness :
  @Subscribe stub.ok 1%positive None gpb.SubscribeRequest_Poll None
    stub.connected
  = Returned
      (Some (Errorf "got *gnmi.SubscribeRequest, want gpb.SubscribeRequest_Subscribe as input"))
      stub.connected
  /\ @Subscribe stub.ok 9%positive None fixtures.streamRequest None
       stub.connected
     = Panicked stub.connected.
Proof.
  split.
  - apply (proj1 (@Subscribe_before_dial stub.ok stub.connected 1%positive
                    None gpb.SubscribeRequest_Poll None)).
    reflexivity.
  - eapply (proj2 (@Subscribe_before_dial stub.ok stub.connected 9%positive
                     None fixtures.streamRequest None)); reflexivity.
Defined.

Lemma ConnectTarget_then_Subscribe_witness :
  exists key w1 r w2,
    @ConnectTarget stub.ok 2%positive (Some 1) fixtures.device2 stub.twoTargets
    = Returned (key, None) w1
    /\ @Subscribe stub.ok 2%positive (Some 2) fixtures.streamRequest (Some 3) w1
       = Returned r w2
    /\ trace w2
       = (trace w1
          ++ [CallGnmiBaseClientFactory;
              CallBaseSubscribe (@GnmiBaseClientFactory stub.ok (trace w1))
                (Some 2)
                (mkQuery ["localhost:10162"] "" 5%Z None None (Some 3) false
                   (Some fixtures.streamRequest))
                "gnmi"])%list
    /\ heap w2 !! 2%positive
       = Some (mkTarget (createDestination fixtures.device2).1 (Some 0)
                 (Some 1))
    /\ targets w2 = targets w1.
Proof.
  apply (@ConnectTarget_then_Subscribe stub.ok stub.twoTargets 2%positive
           (Some 1) (Some 2) fixtures.device2 fixtures.streamRequest (Some 3)
           zeroTarget 0
           (mkQuery [] "" 0%Z None None None false
              (Some fixtures.streamRequest))); reflexivity.
Defined.

Lemma Close_keeps_session_witness :
  exists r1 w1 r2 w2,
    @Close stub.ok 1%positive stub.connected = Returned r1 w1
    /\ heap w1 !! 1%positive
       = Some (mkTarget (createDestination stub.device1).1 (Some 7) None)
    /\ GetTarget "localhost-1:1.0.0" w1 = Returned (inl 1%positive) w1
    /\ @Close stub.ok 1%positive w1 = Returned r2 w2
    /\ trace w2 = (trace stub.connected ++ [CallClose 7; CallClose 7])%list.
Proof.
  apply (@Close_keeps_session stub.ok stub.connected 1%positive
           "localhost-1:1.0.0"
           (mkTarget (createDestination stub.device1).1 (Some 7) None) 7);
    reflexivity.
Defined.

(** ** The subscription request builder, further *)

Section BuilderMore.

Context {E : Collaborators}.

Implicit Types (o : SubscribeOptions) (paths : list (list string)).

Local Ltac eqb_cases :=
  repeat match goal with
         | |- context [String.eqb ?a ?b] =>
             let H := fresh "Heq" in
             destruct (String.eqb a b) eqn:H;
             [apply String.eqb_eq in H | apply String.eqb_neq in H]
         end.

Local Ltac listed :=
  match goal with
  | Hin : ?m ∈ _ |- _ =>
      exfalso; unfold modeNames, streamModeNames in Hin;
      apply list_elem_of_In in Hin; simpl in Hin; intuition congruence
  end.

(** The loop stops at the first path that does not parse. *)
Lemma subscriptionsOf_first_failure o streamMode pre p post err :
  Forall (fun p' => exists gp, ParseGNMIElements p' = inl gp) pre ->
  ParseGNMIElements p = inr err ->
  subscriptionsOf o streamMode (pre ++ p :: post) = inr err.
Proof.
  intros Hpre Hp. induction Hpre as [|p' pre [gp Hp'] _ IH]; simpl.
  - by rewrite Hp.
  - by rewrite Hp', IH.
Qed.

(** What the loop returns, read backwards. *)
Lemma subscriptionsOf_inv o streamMode paths subs :
  subscriptionsOf o streamMode paths = inl subs ->
  Forall2 (fun p su =>
             exists gp,
               ParseGNMIElements p = inl gp
               /\ su = gpb.mkSubscription (gpb.withOrigin gp (Origin o))
                         streamMode (SampleInterval o) (HeartbeatInterval o))
          paths subs.
Proof.
  revert subs. induction paths as [|p paths IH]; simpl; intros subs.
  - intros [= <-]. constructor.
  - destruct (ParseGNMIElements p) as [gp|] eqn:Hp; [|done].
    destruct (subscriptionsOf o streamMode paths); [|done].
    intros [= <-]. constructor; [by exists gp | by apply IH].
Qed.


(** X17.  With both mode strings accepted, a prefix that does not parse
    ends the build with the parser's error, whatever the paths are. *)
Theorem NewSubscribeRequest_prefix_failure o err :
  ToUpper (Mode o) ∈ modeNames ->
  ToUpper (StreamMode o) ∈ streamModeNames ->
  ParseGNMIElements (SplitPath (Prefix o)) = inr err ->
  NewSubscribeRequest o = inr err.
Proof.
  intros Hm Hs Hp. unfold NewSubscribeRequest. rewrite Hp.
  simpl gpb.SubscriptionList_Mode_String.
  simpl gpb.SubscriptionMode_String.
  eqb_cases; try listed; done.
Qed.

(** X18.  With both mode strings accepted and a prefix that parses, the
    build returns the error of the first path that does not parse, and
    no request, whatever follows that path. *)
Theorem NewSubscribeRequest_path_failure o prefixPath pre p post err :
  ToUpper (Mode o) ∈ modeNames ->
  ToUpper (StreamMode o) ∈ streamModeNames ->
  ParseGNMIElements (SplitPath (Prefix o)) = inl prefixPath ->
  Paths o = (pre ++ p :: post)%list ->
  Forall (fun p' => exists gp, ParseGNMIElements p' = inl gp) pre ->
  ParseGNMIElements p = inr err ->
  NewSubscribeRequest o = inr err.
Proof.
  intros Hm Hs Hprefix Hpaths Hpre Hp. unfold NewSubscribeRequest.
  rewrite Hprefix, Hpaths.
  simpl gpb.SubscriptionList_Mode_String.
  simpl gpb.SubscriptionMode_String.
  eqb_cases; try listed;
    by rewrite (subscriptionsOf_first_failure _ _ _ _ _ _ Hpre Hp).
Qed.

(** X19.  Every request the build returns is a subscribe request, never
    a poll; it holds the updates-only flag of the options and the prefix
    as parsed, and its subscriptions match the input paths one to one and
    in order: each path parsed, and its subscription is the parsed path
    with the origin of the options, one stream mode shared by all, and
    the two intervals of the options. *)
Theorem NewSubscribeRequest_inv o request :
  NewSubscribeRequest o = inl request ->
  exists l streamMode,
    request = gpb.SubscribeRequest_Subscribe l
    /\ gpb.sl_UpdatesOnly l = UpdatesOnly o
    /\ ParseGNMIElements (SplitPath (Prefix o)) = inl (gpb.sl_Prefix l)
    /\ length (gpb.sl_Subscription l) = length (Paths o)
    /\ Forall2 (fun p su =>
                  exists gp,
                    ParseGNMIElements p = inl gp
                    /\ su = gpb.mkSubscription
                              (gpb.withOrigin gp (Origin o)) streamMode
                              (SampleInterval o) (HeartbeatInterval o))
               (Paths o) (gpb.sl_Subscription l).
Proof.
  unfold NewSubscribeRequest.
  simpl gpb.SubscriptionList_Mode_String.
  simpl gpb.SubscriptionMode_String.
  eqb_cases; try done;
    (destruct (ParseGNMIElements (SplitPath (Prefix o))) as [pp|]; [|done]);
    (destruct (subscriptionsOf o _ (Paths o)) as [subs|] eqn:Hsubs; [|done]);
    intros [= <-]; apply subscriptionsOf_inv in Hsubs;
    eexists _, _; (split; [reflexivity|]); (split; [reflexivity|]);
    (split; [reflexivity|]);
    (split; [symmetry; by eapply Forall2_length | exact Hsubs]).
Qed.


End BuilderMore.

(** The builder at the test doubles. *)

Lemma NewSubscribeRequest_prefix_failure_witness :
  @NewSubscribeRequest fixtures.closeFails fixtures.badPrefixOptions
  = inr (Errorf "empty element").
Proof.
  apply (@NewSubscribeRequest_prefix_failure fixtures.closeFails
           fixtures.badPrefixOptions (Errorf "empty element")).
  - apply list_elem_of_In. vm_compute. tauto.
  - apply list_elem_of_In. vm_compute. tauto.
  - reflexivity.
Defined.

Lemma NewSubscribeRequest_path_failure_witness :
  @NewSubscribeRequest fixtures.closeFails fixtures.badPathOptions
  = inr (Errorf "empty element").
Proof.
  apply (@NewSubscribeRequest_path_failure fixtures.closeFails
           fixtures.badPathOptions
           (gpb.mkPath ["p"] "" [gpb.mkPathElem "p" []] "")
           [["a"]] ["b"; ""] [[""]] (Errorf "empty element")).
  - apply list_elem_of_In. vm_compute. tauto.
  - apply list_elem_of_In. vm_compute. tauto.
  - reflexivity.
  - reflexivity.
  - constructor; [|constructor]. eexists. reflexivity.
  - reflexivity.
Defined.

Lemma NewSubscribeRequest_inv_witness :
  exists l streamMode,
    @NewSubscribeRequest stub.ok stub.streamOptions
    = inl (gpb.SubscribeRequest_Subscribe l)
    /\ gpb.sl_UpdatesOnly l = false
    /\ length (gpb.sl_Subscription l) = 2
    /\ Forall2 (fun p su =>
                  exists gp,
                    @ParseGNMIElements stub.ok p = inl gp
                    /\ su = gpb.mkSubscription
                              (gpb.withOrigin gp "openconfig") streamMode
                              15 15)
               [["a"; "b"; "c"]; ["d"]] (gpb.sl_Subscription l).
Proof.
  destruct (@NewSubscribeRequest stub.ok stub.streamOptions)
    as [request|] eqn:Hreq; [|discriminate Hreq].
  destruct (@NewSubscribeRequest_inv stub.ok stub.streamOptions request Hreq)
    as (l & streamMode & -> & Hu & _ & Hlen & Hsubs).
  exists l, streamMode. split; [reflexivity|]. split; [exact Hu|].
  split; [exact Hlen | exact Hsubs].
Defined.


(** ** The stub client of the tests *)

Section TestClient.

Import testclient.

(** X21.  The stub's [Get] answers a request without paths with an empty
    response, and a request with one path with one notification whose
    single update carries that path and the value "0"; on a request with
    two or more paths it panics, because the second notification writes
    its update at index 1 of a slice of length 1. *)
Theorem TestClientImpl_Get (r : GetRequest) :
  (Path r = [] -> Get r = Some (mkGetResponse []))
  /\ (forall p, Path r = [p] ->
        Get r = Some (mkGetResponse
                        [Some (mkNotification [Some (mkUpdate p "0")])]))
  /\ (2 <= length (Path r) -> Get r = None).
Proof.
  destruct r as [paths]. unfold Get. simpl. split; [|split].
  - intros ->. reflexivity.
  - intros p ->. reflexivity.
  - destruct paths as [|p0 [|p1 paths]]; simpl; [lia | lia |].
    intros _. unfold getStep, setIndex. simpl.
    repeat (case_decide; simpl; try lia). done.
Qed.

End TestClient.

Lemma TestClientImpl_Get_witness :
  testclient.Get
    (testclient.mkGetRequest [Some (gpb.mkPath [] "" [] "*")])
  = Some (testclient.mkGetResponse
            [Some (testclient.mkNotification
                     [Some (testclient.mkUpdate
                              (Some (gpb.mkPath [] "" [] "*")) "0")])])
  /\ testclient.Get
       (testclient.mkGetRequest
          [Some (gpb.mkPath [] "" [] "a"); Some (gpb.mkPath [] "" [] "b")])
     = None.
Proof.
  split.
  - apply (proj1 (proj2 (TestClientImpl_Get
                           (testclient.mkGetRequest
                              [Some (gpb.mkPath [] "" [] "*")])))).
    reflexivity.
  - apply (proj2 (proj2 (TestClientImpl_Get
                           (testclient.mkGetRequest
                              [Some (gpb.mkPath [] "" [] "a");
                               Some (gpb.mkPath [] "" [] "b")])))).
    simpl. lia.
Defined.
